(** * Meshery model import / export handlers

    A shallow embedding of [RegisterMeshmodels] and [ExportModel] from
    [server/handlers/component_handler.go].

    The two handlers are effectful Go functions: they create and delete
    files, call into the registry and the model generators, and write an
    HTTP response.  They are embedded as computations in a small
    state-and-exit monad over an explicit [World] (file system, registry,
    response writer, stack of deferred calls, and a trace of the calls made
    to collaborators).  Library and collaborator code that is not part of the
    handlers is reached through the fields of an [Env] record. *)

From Stdlib Require Import NArith Ascii String.
From stdpp Require Import base gmap strings list pretty.

Local Open Scope string_scope.
Local Open Scope list_scope.

(** ** Strings and bytes

    Go strings and byte slices are sequences of bytes; both are embedded as
    [string] (a list of 8-bit [ascii]). *)

Module GoStrings.

(** [strings.HasPrefix]. *)
Definition HasPrefix (s pre : string) : bool := String.prefix pre s.

Fixpoint drop_chars (n : nat) (s : string) : string :=
  match n, s with
  | O, _ => s
  | S k, String _ r => drop_chars k r
  | S _, EmptyString => EmptyString
  end.

(** [strings.TrimPrefix]: the prefix is cut when present, the string is
    returned unchanged otherwise. *)
Definition TrimPrefix (s pre : string) : string :=
  if HasPrefix s pre then drop_chars (String.length pre) s else s.

Definition is_upper_ascii (c : ascii) : bool :=
  let n := N_of_ascii c in ((65 <=? n) && (n <=? 90))%N.

Definition is_ascii_char (c : ascii) : bool := (N_of_ascii c <? 128)%N.

Definition lower_ascii (c : ascii) : ascii :=
  if is_upper_ascii c then ascii_of_N (N_of_ascii c + 32) else c.

Fixpoint isASCII (s : string) : bool :=
  match s with
  | EmptyString => true
  | String c r => is_ascii_char c && isASCII r
  end.

Fixpoint map_chars (f : ascii -> ascii) (s : string) : string :=
  match s with
  | EmptyString => EmptyString
  | String c r => String (f c) (map_chars f r)
  end.

Fixpoint has_upper (s : string) : bool :=
  match s with
  | EmptyString => false
  | String c r => is_upper_ascii c || has_upper r
  end.

(** [strings.ToLower]: byte-wise on a pure ASCII string, and the Unicode
    mapping [unicode_lower] (left to the caller) on anything else. *)
Definition ToLower (unicode_lower : string -> string) (s : string) : string :=
  if isASCII s then map_chars lower_ascii s else unicode_lower s.

(** [s[lo:hi]]; [None] stands for the run-time panic of a slice whose
    bounds are out of range. *)
Definition slice (s : string) (lo : nat) (hi : Z) : option string :=
  if bool_decide (0 <= hi)%Z then
    let h := Z.to_nat hi in
    if bool_decide (lo <= h /\ h <= String.length s)
    then Some (substring lo (h - lo) s) else None
  else None.

(** [s] occurs in [t]. *)
Definition contains (t s : string) : Prop :=
  exists pre post : string, t = pre +:+ s +:+ post.

Definition quote : string := String "034"%char EmptyString.
Definition newline : string := String "010"%char EmptyString.

End GoStrings.

(** ** [encoding/base64], standard alphabet with padding *)

Module Base64.

Definition index (c : ascii) : option N :=
  let n := N_of_ascii c in
  if ((65 <=? n) && (n <=? 90))%N then Some (n - 65)%N
  else if ((97 <=? n) && (n <=? 122))%N then Some (n - 97 + 26)%N
  else if ((48 <=? n) && (n <=? 57))%N then Some (n - 48 + 52)%N
  else if (n =? 43)%N then Some 62%N
  else if (n =? 47)%N then Some 63%N
  else None.

Definition is_pad (c : ascii) : bool := (N_of_ascii c =? 61)%N.
Definition is_newline (c : ascii) : bool :=
  let n := N_of_ascii c in ((n =? 10) || (n =? 13))%N.

Definition byte_at (v : N) (shift : N) : ascii :=
  ascii_of_N (N.land (N.shiftr v shift) 255).

Definition quantum (a b c d : N) : N :=
  (N.shiftl a 18 + N.shiftl b 12 + N.shiftl c 6 + d)%N.

(** One group of four characters yields three bytes; the last group may
    end in one or two padding characters. *)
Fixpoint decode_groups (l : list ascii) : option (list ascii) :=
  match l with
  | [] => Some []
  | a :: b :: c :: d :: rest =>
      match index a, index b with
      | Some va, Some vb =>
          match index c, index d with
          | Some vc, Some vd =>
              let v := quantum va vb vc vd in
              match decode_groups rest with
              | Some out => Some (byte_at v 16 :: byte_at v 8 :: byte_at v 0 :: out)
              | None => None
              end
          | Some vc, None =>
              if is_pad d && bool_decide (rest = []) then
                let v := quantum va vb vc 0 in
                Some [byte_at v 16; byte_at v 8]
              else None
          | None, _ =>
              if is_pad c && is_pad d && bool_decide (rest = []) then
                let v := quantum va vb 0 0 in
                Some [byte_at v 16]
              else None
          end
      | _, _ => None
      end
  | _ => None
  end.

(** [base64.StdEncoding.DecodeString]; carriage returns and line feeds in
    the input are skipped. *)
Definition DecodeString (s : string) : option string :=
  let chars := filter (fun c => is_newline c = false) (list_ascii_of_string s) in
  match decode_groups chars with
  | Some out => Some (string_of_list_ascii out)
  | None => None
  end.

End Base64.

(** ** [strconv] *)

Module Strconv.

Definition true_words : list string := ["1"; "t"; "T"; "TRUE"; "true"; "True"].
Definition false_words : list string := ["0"; "f"; "F"; "FALSE"; "false"; "False"].

(** [strconv.ParseBool]: the value and whether a syntax error is reported;
    the value is [false] when it is. *)
Definition ParseBool (s : string) : bool * bool :=
  if bool_decide (s ∈ true_words) then (true, false)
  else if bool_decide (s ∈ false_words) then (false, false)
  else (false, true).

Definition FormatBool (b : bool) : string := if b then "true" else "false".

End Strconv.

(** ** Data model *)

(** The nested [model.Model] struct of a model definition. *)
Record ModelVersionInfo := { mv_Version : string }.

(** The dynamic types a non-nil [interface{}] value of a model's
    [Components] or [Relationships] field can have. *)
Inductive Dyn (C R : Type) :=
| DynComponents (cs : list C)
| DynRelationships (rs : list R)
| DynOther (type_name : string).
Arguments DynComponents {C R} cs.
Arguments DynRelationships {C R} rs.
Arguments DynOther {C R} type_name.

(** [model.ModelDefinition], with [component.ComponentDefinition] and
    [relationship.RelationshipDefinition], which embed their model by
    value.  [Components] and [Relationships] have the static type
    [interface{}]: [None] is the nil interface. *)
Inductive ModelDefinition := mkModelDefinition {
  Id : string;
  Name : string;
  DisplayName : string;
  Version : string;
  Model : ModelVersionInfo;
  RegistrantKind : string;
  SvgColor : string;
  SvgWhite : string;
  Components : option (Dyn ComponentDefinition RelationshipDefinition);
  Relationships : option (Dyn ComponentDefinition RelationshipDefinition)
}
with ComponentDefinition := mkComponentDefinition {
  comp_DisplayName : string;
  comp_Kind : string;
  comp_Schema : string;
  comp_SvgColor : string;
  comp_Model : ModelDefinition
}
with RelationshipDefinition := mkRelationshipDefinition {
  rel_Kind : string;
  rel_SubType : string;
  rel_Model : ModelDefinition
}.

(** [entity.Entity]: the dynamic types behind the interface. *)
Inductive Entity :=
| EModelDefinition (m : ModelDefinition)
| EComponentDefinition (c : ComponentDefinition)
| ERelationshipDefinition (r : RelationshipDefinition)
| EOtherEntity (type_name : string).

(** [regv1beta1.ModelFilter], the fields the export sets. *)
Record ModelFilter := {
  mf_Id : string;
  mf_Name : string;
  mf_Components : bool;
  mf_Relationships : bool;
  mf_Greedy : bool;
  mf_Version : string
}.

(** The [Model] object of an import body. *)
Record ImportModel := {
  im_Model : string;
  im_ModelDisplayName : string;
  im_PrimaryColor : string;
  im_SecondaryColor : string;
  im_Category : string;
  im_Registrant : string;
  im_Shape : string;
  im_SubCategory : string;
  im_SvgColor : string;
  im_SvgWhite : string;
  im_SvgComplete : string;
  im_IsAnnotation : bool;
  im_PublishToRegistry : bool
}.

Record ImportBody := {
  ModelCsv : string;
  ComponentCsv : string;
  RelationshipCSV : string;
  ib_Model : ImportModel;
  Url : string;
  ModelFile : string;
  FileName : string
}.

(** [schemav1beta1.ImportRequest]. *)
Record ImportRequest := {
  UploadType : string;
  Register : bool;
  importBody : ImportBody
}.

(** [meshkitRegistryUtils.ModelCSV], the fields the handler fills or reads. *)
Record ModelCSV := {
  csv_Model : string;
  csv_ModelDisplayName : string;
  csv_PrimaryColor : string;
  csv_SecondaryColor : string;
  csv_Category : string;
  csv_Registrant : string;
  csv_Shape : string;
  csv_SubCategory : string;
  csv_SVGColor : string;
  csv_SVGWhite : string;
  csv_SVGComplete : string;
  csv_IsAnnotation : string;
  csv_PublishToRegistry : string;
  csv_Group : string
}.

Definition set_csv_Model (name : string) (m : ModelCSV) : ModelCSV :=
  {| csv_Model := name;
     csv_ModelDisplayName := csv_ModelDisplayName m;
     csv_PrimaryColor := csv_PrimaryColor m;
     csv_SecondaryColor := csv_SecondaryColor m;
     csv_Category := csv_Category m;
     csv_Registrant := csv_Registrant m;
     csv_Shape := csv_Shape m;
     csv_SubCategory := csv_SubCategory m;
     csv_SVGColor := csv_SVGColor m;
     csv_SVGWhite := csv_SVGWhite m;
     csv_SVGComplete := csv_SVGComplete m;
     csv_IsAnnotation := csv_IsAnnotation m;
     csv_PublishToRegistry := csv_PublishToRegistry m;
     csv_Group := csv_Group m |}.

(** [models.Package], an opaque handle. *)
Inductive Package := PackageHandle (source : string).

(** [models.RegistryAPIResponse], the counters the handler reads. *)
Record EntityCount := {
  ModelCount : nat;
  CompCount : nat;
  RelCount : nat;
  TotalErrCount : nat
}.
Record RegistryAPIResponse := { entityCount : EntityCount; ErrMsg : string }.

(** Error values. *)
Inductive error :=
| ErrFileType (msg : string)
| ErrCreateFile (cause : error) (msg : string)
| ErrWritingIntoFile (cause : error) (msg : string)
| MeshkitErrCreateFile (cause : error) (msg : string)
| MeshkitErrCreateDir (cause : error) (msg : string)
| ErrGetMeshModels (cause : error)
| ErrSeedingComponents (cause : error)
| CorruptInputError
| Errorf (msg : string)
| ExternalError (msg : string).

(** Files and directories. *)
Inductive Node := File (content : string) | Directory.

Abbreviation FS := (gmap string Node).
Abbreviation Header := (gmap string (list string)).

(** An OCI image built by [meshkitOci.BuildImage], an opaque handle. *)
Inductive Image := ImageOf (dir : string).

(** ** Calls to collaborators

    Every call the handlers make to the operating system, to the logger and
    event stream, and to the generators and the registry is recorded, in
    order, in the trace of the world. *)
Inductive Event :=
| EvLogInfo (msg : string)
| EvLogError (e : error)
| EvHandleError (e : error) (msg : string)
| EvSendErrorEvent (msg : string) (e : error)
| EvSendEventForImport (components : nat) (model : string) (csv : bool)
| EvHandleRegistrationAndError
| EvSendSuccessResponse (message errMsg : string) (r : RegistryAPIResponse)
| EvCloseBody
| EvCreateTemp (path : string)
| EvMkdirTemp (path : string)
| EvMkdirAll (path : string)
| EvWrite (path : string)
| EvWriteFile (path : string)
| EvClose (path : string)
| EvRemove (path : string)
| EvRemoveAll (path : string)
| EvSetLogger
| EvInvokeGenerationFromSheet (dir model comp rel : string)
| EvGetModelDirectoryPaths (dir : string)
| EvRegister (dir : string)
| EvCopyDirectory (src dst : string)
| EvGenerateModels (registrant url name : string)
| EvCreateVersionedDirectory (version name : string)
| EvCreateModelDefinition (m : ModelCSV) (version defVersion : string)
| EvWriteModelDefinition (m : ModelDefinition) (path fmt : string)
| EvGenerateComponentsFromPkg (pkg : Package) (dir defVersion : string)
    (m : ModelDefinition) (group : string)
| EvWriteComponentDefinition (c : ComponentDefinition) (dir fmt : string)
| EvWriteRelationshipDefinition (r : RelationshipDefinition) (dir fmt : string)
| EvCreateTempNamed (name : string)
| EvHttpGet (url : string)
| EvGetEntities (f : ModelFilter)
| EvBuildImage (dir : string)
| EvSaveOCIArtifact (path name : string)
| EvCompress (dir : string).

(** Calls registered with [defer]; their arguments are evaluated when the
    [defer] statement runs. *)
Inductive Deferred :=
| DeferCloseBody
| DeferClose (file : string)
| DeferRemove (path : string)
| DeferRemoveAll (path : string).

(** [http.ResponseWriter]: the header map the handler edits, and what has
    gone out: the status line with the headers frozen by [WriteHeader] (or by
    the first [Write]), and the body. *)
Record Response := {
  header : Header;
  sent : option (nat * Header);
  body : string
}.

Definition empty_response : Response :=
  {| header := ∅; sent := None; body := EmptyString |}.

(** ** The world *)
Record World := {
  fs : FS;                    (* files and directories, by path *)
  open_files : list string;   (* names of the open [os.File] handles *)
  registry : list Entity;     (* what the registry manager holds *)
  helper : list string;       (* the directories the registration helper was given *)
  resp : Response;            (* [rw] *)
  trace : list Event;         (* calls made so far, oldest first *)
  defers : list Deferred;     (* pending deferred calls, newest first *)
  clock : nat;                (* fallible system calls made so far *)
  rand : nat                  (* random names drawn so far *)
}.

Definition upd_fs (f : FS -> FS) (w : World) : World :=
  {| fs := f (fs w); open_files := open_files w; registry := registry w;
     helper := helper w; resp := resp w; trace := trace w;
     defers := defers w; clock := clock w; rand := rand w |}.

Definition upd_open (f : list string -> list string) (w : World) : World :=
  {| fs := fs w; open_files := f (open_files w); registry := registry w;
     helper := helper w; resp := resp w; trace := trace w;
     defers := defers w; clock := clock w; rand := rand w |}.

Definition upd_registry (f : list Entity -> list Entity) (w : World) : World :=
  {| fs := fs w; open_files := open_files w; registry := f (registry w);
     helper := helper w; resp := resp w; trace := trace w;
     defers := defers w; clock := clock w; rand := rand w |}.

Definition upd_helper (f : list string -> list string) (w : World) : World :=
  {| fs := fs w; open_files := open_files w; registry := registry w;
     helper := f (helper w); resp := resp w; trace := trace w;
     defers := defers w; clock := clock w; rand := rand w |}.

Definition upd_resp (f : Response -> Response) (w : World) : World :=
  {| fs := fs w; open_files := open_files w; registry := registry w;
     helper := helper w; resp := f (resp w); trace := trace w;
     defers := defers w; clock := clock w; rand := rand w |}.

Definition record (e : Event) (w : World) : World :=
  {| fs := fs w; open_files := open_files w; registry := registry w;
     helper := helper w; resp := resp w; trace := trace w ++ [e];
     defers := defers w; clock := clock w; rand := rand w |}.

Definition set_defers (ds : list Deferred) (w : World) : World :=
  {| fs := fs w; open_files := open_files w; registry := registry w;
     helper := helper w; resp := resp w; trace := trace w;
     defers := ds; clock := clock w; rand := rand w |}.

Definition advance_clock (w : World) : World :=
  {| fs := fs w; open_files := open_files w; registry := registry w;
     helper := helper w; resp := resp w; trace := trace w;
     defers := defers w; clock := S (clock w); rand := rand w |}.

Definition set_rand (k : nat) (w : World) : World :=
  {| fs := fs w; open_files := open_files w; registry := registry w;
     helper := helper w; resp := resp w; trace := trace w;
     defers := defers w; clock := clock w; rand := k |}.

(** ** The environment of the handlers

    What the handlers reach outside their own file: the process environment,
    the standard library's system calls (which may fail), meshkit's
    generators, the registry manager, and the helpers of the [handlers],
    [models] and [utils] packages.  A collaborator that touches the disk is
    a function of the file system it finds, and returns the one it leaves. *)
Record Env := {
  (* process environment and system *)
  TempDir : string;
  HOME : string;
  filepath_Clean : string -> string;
  random_name : nat -> string;
  fault : nat -> option error;
  unicode_lower : string -> string;
  error_text : error -> string;
  json_Marshal : string -> string + error;
  http_Get : string -> error + (nat * (error + string));
  (* helpers/utils *)
  RegistryLocation : string;
  DefVersion : string;
  CopyDirectory : string -> string -> FS -> option error * FS;
  CreateVersionedDirectoryForModelAndComp :
    string -> string -> FS -> ((string * string) + error) * FS;
  (* handlers and models packages *)
  setDefaultValues : ModelCSV -> ModelCSV;
  CreateTemp : string -> string -> FS -> (string + error) * FS;
  detectFileType : string -> string;
  GetModelDirectoryPaths : string -> FS -> list string * option error;
  handleRegistrationAndError : list string -> FS -> RegistryAPIResponse;
  writeMessageString : RegistryAPIResponse -> string;
  ErrMsgContruct : RegistryAPIResponse -> string;
  (* meshkit and schemas *)
  SetLogger : bool -> option error;
  InvokeGenerationFromSheet :
    string -> string -> string -> string -> FS -> option error * FS;
  helper_Register : string -> FS -> list Entity -> list Entity;
  GenerateModels : string -> string -> string -> FS -> ((Package * string) + error) * FS;
  CreateModelDefinition : ModelCSV -> string -> string -> ModelDefinition;
  WriteModelDefinition : ModelDefinition -> string -> string -> FS -> option error * FS;
  GenerateComponentsFromPkg :
    Package -> string -> string -> ModelDefinition -> string -> FS -> (nat + error) * FS;
  IsOCIArtifact : string -> bool;
  GetEntities : ModelFilter -> list Entity -> list Entity + error;
  model_ReplaceSVGData : ModelDefinition -> string -> ModelDefinition * option error;
  comp_ReplaceSVGData : ComponentDefinition -> string -> ComponentDefinition * option error;
  WriteComponentDefinition : ComponentDefinition -> string -> string -> FS -> option error * FS;
  WriteRelationshipDefinition :
    RelationshipDefinition -> string -> string -> FS -> option error * FS;
  BuildImage : string -> FS -> Image + error;
  SaveOCIArtifact : Image -> string -> string -> FS -> option error * FS;
  Compress : string -> FS -> string + error
}.

(** ** The monad of handler bodies

    A statement either falls through with a value, executes [return], or
    panics; the world is threaded through. *)
Inductive Res (A : Type) :=
| Val (a : A)
| Returned
| Panicked.
Arguments Val {A} a.
Arguments Returned {A}.
Arguments Panicked {A}.

Definition M (A : Type) : Type := World -> Res A * World.

Definition ret {A : Type} (a : A) : M A := fun w => (Val a, w).

Definition bind {A B : Type} (m : M A) (k : A -> M B) : M B :=
  fun w =>
    match m w with
    | (Val a, w') => k a w'
    | (Returned, w') => (Returned, w')
    | (Panicked, w') => (Panicked, w')
    end.

Definition go_return {A : Type} : M A := fun w => (Returned, w).
Definition go_panic {A : Type} : M A := fun w => (Panicked, w).

Declare Scope go_scope.
Delimit Scope go_scope with go.
Notation "x <- m ;; k" := (bind m (fun x => k))
  (at level 20, m at level 98, k at level 200, only parsing) : go_scope.
Notation "m ;; k" := (bind m (fun _ => k))
  (at level 100, k at level 200, right associativity, only parsing) : go_scope.
Notation "' pat <- m ;; k" := (bind m (fun x => match x with pat => k end))
  (at level 20, pat pattern, m at level 98, k at level 200, only parsing) : go_scope.
Local Open Scope go_scope.

Definition act (f : World -> World) : M unit := fun w => (Val tt, f w).
Definition emit (e : Event) : M unit := act (record e).
Definition defer (d : Deferred) : M unit :=
  fun w => (Val tt, set_defers (d :: defers w) w).
Definition get_fs : M FS := fun w => (Val (fs w), w).

(** A [for ... range] loop whose body may return or panic. *)
Fixpoint for_range {A : Type} (l : list A) (body : A -> M unit) : M unit :=
  match l with
  | [] => ret tt
  | x :: rest => body x ;; for_range rest body
  end.

(** A call to a collaborator that reads and writes the disk. *)
Definition on_disk {A : Type} (f : FS -> A * FS) : M A :=
  fun w => let '(a, m) := f (fs w) in (Val a, upd_fs (fun _ => m) w).

(** ** The file system *)
Module Files.

Definition is_under (dir p : string) : bool := String.prefix (dir +:+ "/") p.

Fixpoint ancestors_from (acc rest : string) : list string :=
  match rest with
  | EmptyString => []
  | String c r =>
      (if bool_decide (c = "/"%char) && negb (bool_decide (acc = EmptyString))
       then [acc] else [])
      ++ ancestors_from (acc +:+ String c EmptyString) r
  end.

(** The proper ancestors of a path, outermost first. *)
Definition ancestors (p : string) : list string := ancestors_from EmptyString p.

Definition mkdir_step (acc : option FS) (p : string) : option FS :=
  match acc with
  | Some m =>
      match m !! p with
      | Some (File _) => None
      | _ => Some (<[p := Directory]> m)
      end
  | None => None
  end.

(** [os.MkdirAll]: the directory and the missing ancestors; it fails on a
    path that runs through a regular file. *)
Definition mkdir_all (p : string) (m : FS) : option FS :=
  foldl mkdir_step (Some m) (ancestors p ++ [p]).

(** [os.RemoveAll]: the path and everything below it. *)
Definition remove_all (p : string) (m : FS) : FS :=
  filter (fun kv => kv.1 ≠ p ∧ is_under p kv.1 = false) m.

Definition children (p : string) (m : FS) : FS :=
  filter (fun kv => is_under p kv.1 = true) m.

(** [os.Remove]: a file, or an empty directory. *)
Definition remove (p : string) (m : FS) : option FS :=
  match m !! p with
  | Some (File _) => Some (delete p m)
  | Some Directory =>
      if bool_decide (children p m = ∅) then Some (delete p m) else None
  | None => None
  end.

(** The pattern of [os.CreateTemp] and [os.MkdirTemp] is cut at its last
    star; with no star the random part goes at the end. *)
Fixpoint split_at_last_star (s : string) : option (string * string) :=
  match s with
  | EmptyString => None
  | String c r =>
      match split_at_last_star r with
      | Some (p, q) => Some (String c p, q)
      | None => if bool_decide (c = "*"%char) then Some (EmptyString, r) else None
      end
  end.

Definition prefixAndSuffix (pattern : string) : string * string :=
  match split_at_last_star pattern with
  | Some pq => pq
  | None => (pattern, EmptyString)
  end.

(** Names are tried until one is free, at most [max_tries] times. *)
Definition max_tries : nat := 100 * 100.

Fixpoint fresh_name (name_of : nat -> string) (m : FS) (k tries : nat)
  : option (string * nat) :=
  match tries with
  | O => None
  | S t =>
      match m !! name_of k with
      | None => Some (name_of k, S k)
      | Some _ => fresh_name name_of m (S k) t
      end
  end.

End Files.

#[global] Arguments Files.fresh_name : simpl never.
#[global] Arguments Files.mkdir_all : simpl never.
#[global] Arguments Files.remove_all : simpl never.
#[global] Arguments Files.remove : simpl never.
#[global] Arguments Files.prefixAndSuffix : simpl never.

(** The world a request finds: the disk and the registry as they are, a
    fresh response writer, nothing deferred, nothing recorded. *)
Definition initial_world (disk : FS) (reg : list Entity) : World :=
  {| fs := disk; open_files := []; registry := reg; helper := [];
     resp := empty_response; trace := []; defers := []; clock := 0; rand := 0 |}.

Abbreviation Query := (gmap string (list string)).

(** [url.Values.Get]: the first value of the key, the empty string when the
    key has none. *)
Definition Query_Get (q : Query) (key : string) : string :=
  match q !! key with
  | Some (v :: _) => v
  | _ => EmptyString
  end.

Definition nonempty (s : string) : bool := negb (bool_decide (s = EmptyString)).

Section Handlers.

Variable E : Env.

(** *** System calls *)

(** The next fallible system call, with the error it fails with, if any. *)
Definition syscall : M (option error) :=
  fun w => (Val (fault E (clock w)), advance_clock w).

(** [filepath.Join]: the non-empty elements, joined and cleaned. *)
Definition filepath_Join (parts : list string) : string :=
  match filter (fun s => nonempty s = true) parts with
  | [] => EmptyString
  | ne => filepath_Clean E (String.concat "/" ne)
  end.

Definition temp_path (pattern r : string) : string :=
  let '(pre, suf) := Files.prefixAndSuffix pattern in
  TempDir E +:+ "/" +:+ pre +:+ r +:+ suf.

Definition draw_name (pattern : string) (w : World) : option (string * nat) :=
  Files.fresh_name (fun k => temp_path pattern (random_name E k))
    (fs w) (rand w) Files.max_tries.

(** [os.CreateTemp("", pattern)]: a new, empty, open file in the default
    temporary directory. *)
Definition os_CreateTemp (pattern : string) : M (string + error) :=
  err <- syscall ;;
  match err with
  | Some e => ret (inr e)
  | None => fun w =>
      match draw_name pattern w with
      | Some (p, k) =>
          (Val (inl p),
           record (EvCreateTemp p)
             (upd_open (cons p) (upd_fs (insert p (File EmptyString)) (set_rand k w))))
      | None => (Val (inr (ExternalError "file exists")), w)
      end
  end.

(** [os.MkdirTemp("", pattern)]. *)
Definition os_MkdirTemp (pattern : string) : M (string + error) :=
  err <- syscall ;;
  match err with
  | Some e => ret (inr e)
  | None => fun w =>
      match draw_name pattern w with
      | Some (p, k) =>
          (Val (inl p),
           record (EvMkdirTemp p) (upd_fs (insert p Directory) (set_rand k w)))
      | None => (Val (inr (ExternalError "file exists")), w)
      end
  end.

Definition append_content (data : string) (n : Node) : Node :=
  match n with
  | File c => File (c +:+ data)
  | Directory => Directory
  end.

(** [Write] on an [os.File]. *)
Definition file_Write (name data : string) : M (option error) :=
  err <- syscall ;;
  match err with
  | Some e => ret (Some e)
  | None =>
      act (upd_fs (alter (append_content data) name)) ;;
      emit (EvWrite name) ;;
      ret None
  end.

(** [Close] on an [os.File]. *)
Definition file_Close (name : string) (w : World) : World :=
  record (EvClose name) (upd_open (filter (fun p => p ≠ name)) w).

(** [os.Stat] followed by [os.IsNotExist] on its error. *)
Definition stat_IsNotExist (path : string) : M bool :=
  fun w => (Val (bool_decide (fs w !! path = None)), w).

(** [os.MkdirAll]. *)
Definition os_MkdirAll (path : string) : M (option error) :=
  err <- syscall ;;
  match err with
  | Some e => ret (Some e)
  | None => fun w =>
      match Files.mkdir_all path (fs w) with
      | Some m => (Val None, record (EvMkdirAll path) (upd_fs (fun _ => m) w))
      | None => (Val (Some (ExternalError "not a directory")), w)
      end
  end.

(** [os.RemoveAll] and [os.Remove]; the handlers drop their errors. *)
Definition os_RemoveAll (path : string) (w : World) : World :=
  record (EvRemoveAll path) (upd_fs (Files.remove_all path) w).

Definition os_Remove (path : string) (w : World) : World :=
  record (EvRemove path)
    (upd_fs (fun m => default m (Files.remove path m)) w).

(** [os.ReadFile] with its error dropped: no bytes when the read fails. *)
Definition os_ReadFile (path : string) : M string :=
  err <- syscall ;;
  fun w =>
    match err, fs w !! path with
    | None, Some (File c) => (Val c, w)
    | _, _ => (Val EmptyString, w)
    end.

(** [os.WriteFile]. *)
Definition os_WriteFile (path data : string) : M (option error) :=
  err <- syscall ;;
  match err with
  | Some e => ret (Some e)
  | None =>
      act (upd_fs (insert path (File data))) ;;
      emit (EvWriteFile path) ;;
      ret None
  end.

(** *** The response writer *)

Definition Header_Add (key value : string) : M unit :=
  act (upd_resp (fun r =>
    {| header := <[key := default [] (header r !! key) ++ [value]]> (header r);
       sent := sent r; body := body r |})).

Definition Header_Set (key value : string) : M unit :=
  act (upd_resp (fun r =>
    {| header := <[key := [value]]> (header r); sent := sent r; body := body r |})).

(** The status line goes out once, with the headers as they are then. *)
Definition freeze (code : nat) (r : Response) : Response :=
  match sent r with
  | Some _ => r
  | None => {| header := header r; sent := Some (code, header r); body := body r |}
  end.

Definition WriteHeader (code : nat) : M unit := act (upd_resp (freeze code)).

Definition StatusOK : nat := 200.
Definition StatusBadRequest : nat := 400.
Definition StatusNotFound : nat := 404.
Definition StatusInternalServerError : nat := 500.

(** [rw.Write]: the bytes are handed to the writer, which reports whether
    it could send them; the first write sends status 200 if none was
    sent. *)
Definition rw_Write (data : string) : M (option error) :=
  err <- syscall ;;
  act (upd_resp (fun r =>
    let r' := freeze StatusOK r in
    {| header := header r'; sent := sent r'; body := body r' +:+ data |})) ;;
  ret err.

Definition Fprintln (msg : string) : M unit :=
  _ <- rw_Write (msg +:+ GoStrings.newline) ;; ret tt.

(** [http.Error]. *)
Definition http_Error (msg : string) (code : nat) : M unit :=
  Header_Set "Content-Type" "text/plain; charset=utf-8" ;;
  Header_Set "X-Content-Type-Options" "nosniff" ;;
  WriteHeader code ;;
  Fprintln msg.

(** *** Running a handler: the body, then the deferred calls, last
    registered first, also when the body panicked. *)

Definition run_deferred (d : Deferred) (w : World) : World :=
  match d with
  | DeferCloseBody => record EvCloseBody w
  | DeferClose f => file_Close f w
  | DeferRemove p => os_Remove p w
  | DeferRemoveAll p => os_RemoveAll p w
  end.

Inductive Outcome := Finished | Panic.

Definition run_handler (body : M unit) (w : World) : Outcome * World :=
  let '(r, w1) := body w in
  let w2 := foldl (fun acc d => run_deferred d acc) (set_defers [] w1) (defers w1) in
  (match r with Panicked => Panic | _ => Finished end, w2).

(** *** [ExportModel] *)

Definition strip (m : ModelDefinition) : ModelDefinition :=
  {| Id := Id m; Name := Name m; DisplayName := DisplayName m;
     Version := Version m; Model := Model m;
     RegistrantKind := RegistrantKind m;
     SvgColor := SvgColor m; SvgWhite := SvgWhite m;
     Components := None; Relationships := None |}.

Definition comp_set_Model (m : ModelDefinition) (c : ComponentDefinition)
  : ComponentDefinition :=
  {| comp_DisplayName := comp_DisplayName c; comp_Kind := comp_Kind c;
     comp_Schema := comp_Schema c; comp_SvgColor := comp_SvgColor c;
     comp_Model := m |}.

Definition rel_set_Model (m : ModelDefinition) (r : RelationshipDefinition)
  : RelationshipDefinition :=
  {| rel_Kind := rel_Kind r; rel_SubType := rel_SubType r; rel_Model := m |}.

(** The flag of a boolean query parameter: a value that does not parse
    turns it on. *)
Definition bool_param (q : Query) (key : string) : bool :=
  let '(value, err) := Strconv.ParseBool (Query_Get q key) in
  if err then true else value.

Definition export_filter (q : Query) : ModelFilter :=
  {| mf_Id := Query_Get q "id";
     mf_Name := Query_Get q "name";
     mf_Components := bool_param q "components";
     mf_Relationships := bool_param q "relationships";
     mf_Greedy := true;
     mf_Version := Query_Get q "version" |}.

Definition export_fileTypes (q : Query) : string :=
  let fileTypes := Query_Get q "file_type" in
  if bool_decide (fileTypes = EmptyString) then "oci" else fileTypes.

Definition export_outputFormat (q : Query) : string :=
  let outputFormat := Query_Get q "output_format" in
  if bool_decide (outputFormat = EmptyString) then "json" else outputFormat.

(** The message of the 404 answer. *)
Definition not_found_message (modelId name version : string) : string :=
  let message := "model with " in
  let message :=
    if nonempty modelId then message +:+ "id " +:+ modelId +:+ " " else message in
  let message :=
    if nonempty name then message +:+ "name " +:+ name +:+ " " else message in
  let message :=
    if nonempty version then message +:+ "version " +:+ version +:+ " " else message in
  message +:+ "has not been found".

Definition registry_GetEntities (f : ModelFilter) : M (list Entity + error) :=
  emit (EvGetEntities f) ;;
  fun w => (Val (GetEntities E f (registry w)), w).

(** A logged error followed by a 500 answer and [return]. *)
Definition fail_500 {A : Type} (err : error) : M A :=
  emit (EvLogError err) ;;
  http_Error (error_text E err) StatusInternalServerError ;;
  go_return.

Definition log_if_error (err : option error) : M unit :=
  match err with
  | Some e => emit (EvLogError e)
  | None => ret tt
  end.

Definition attachment (file : string) : string :=
  "attachment; filename=" +:+ GoStrings.quote +:+ file +:+ GoStrings.quote.

(** Packaging the directory: an OCI image saved as a tar, or a gzipped
    tarball; the bytes read back are what the handler sends. *)
Definition export_package (fileTypes modelDir : string) (model : ModelDefinition)
  : M string :=
  if bool_decide (fileTypes = "oci") then
    emit (EvBuildImage modelDir) ;;
    disk <- get_fs ;;
    match BuildImage E modelDir disk with
    | inr err => fail_500 err
    | inl img =>
        (* Save OCI artifact into a tar file *)
        let tarfileName := filepath_Join [modelDir; "model.tar"] in
        emit (EvSaveOCIArtifact tarfileName (Name model)) ;;
        err <- on_disk (SaveOCIArtifact E img tarfileName (Name model)) ;;
        match err with
        | Some err => fail_500 err
        | None => ret tt
        end ;;
        (* 3. Send response *)
        byt <- os_ReadFile tarfileName ;;
        Header_Add "Content-Type" "application/x-tar" ;;
        Header_Set "Content-Disposition" (attachment (Name model +:+ ".tar")) ;;
        Header_Set "Content-Length" (pretty (String.length byt)) ;;
        ret byt
    end
  else
    emit (EvCompress modelDir) ;;
    disk <- get_fs ;;
    match Compress E modelDir disk with
    | inr err => fail_500 err
    | inl tarData =>
        let tarfileName := filepath_Join [modelDir; "model.tar.gz"] in
        err <- os_WriteFile tarfileName tarData ;;
        match err with
        | Some err => fail_500 err
        | None => ret tt
        end ;;
        byt <- os_ReadFile tarfileName ;;
        Header_Add "Content-Type" "application/gzip" ;;
        Header_Set "Content-Disposition" (attachment (Name model +:+ ".tar.gz")) ;;
        ret byt
    end.

(** Writing the package tree of [model] (as the registry returned it,
    after its SVG paths were rewritten) under [versionDir]. *)
Definition export_write_tree (outputFormat versionDir : string)
    (model : ModelDefinition) : M ModelDefinition :=
  components <- match Components model with
                | None => ret []
                | Some (DynComponents cs) => ret cs
                | Some _ => go_panic
                end ;;
  relationships <- match Relationships model with
                   | None => ret []
                   | Some (DynRelationships rs) => ret rs
                   | Some _ => go_panic
                   end ;;
  let model := strip model in
  (* Write model.json to {modelname}/v1.0.0/1.0.0/model.json *)
  let modelPath := filepath_Join [versionDir; "model." +:+ outputFormat] in
  emit (EvWriteModelDefinition model modelPath outputFormat) ;;
  err <- on_disk (WriteModelDefinition E model modelPath outputFormat) ;;
  match err with
  | Some err => fail_500 err
  | None => ret tt
  end ;;
  let componentsDir := filepath_Join [versionDir; "components"] in
  let relationshipsDir := filepath_Join [versionDir; "relationships"] in
  for_range components (fun comp =>
    let '(comp, _) := comp_ReplaceSVGData E comp "../../" in
    let comp := comp_set_Model model comp in
    emit (EvWriteComponentDefinition comp componentsDir outputFormat) ;;
    err <- on_disk (WriteComponentDefinition E comp componentsDir outputFormat) ;;
    log_if_error err) ;;
  for_range relationships (fun rel =>
    let rel := rel_set_Model model rel in
    emit (EvWriteRelationshipDefinition rel relationshipsDir outputFormat) ;;
    err <- on_disk (WriteRelationshipDefinition E rel relationshipsDir outputFormat) ;;
    log_if_error err) ;;
  ret model.

(** The handler from the answer of the registry on. *)
Definition export_entities (q : Query) (found : list Entity + error) : M unit :=
  let modelId := Query_Get q "id" in
  let name := Query_Get q "name" in
  let version := Query_Get q "version" in
  let outputFormat := export_outputFormat q in
  let fileTypes := export_fileTypes q in
  match found with
  | inr err => fail_500 (ErrGetMeshModels err)
  | inl e =>
      (* No entities found for the given filter *)
      (if bool_decide (length e = 0) then
         WriteHeader StatusNotFound ;;
         Fprintln (not_found_message modelId name version) ;;
         go_return
       else ret tt) ;;
      model <- match e with
               | EModelDefinition m :: _ => ret m
               | _ => go_panic
               end ;;
      let '(model, err) := model_ReplaceSVGData E model "../../" in
      log_if_error err ;;
      (* 2. Convert it to oci *)
      let temp := TempDir E in
      let modelDir := filepath_Join [temp; Name model] in
      let versionDir :=
        filepath_Join [modelDir; mv_Version (Model model); Version model] in
      let dirs := [versionDir;
                   filepath_Join [versionDir; "components"];
                   filepath_Join [versionDir; "relationships"]] in
      for_range dirs (fun dir =>
        err <- os_MkdirAll dir ;;
        match err with
        | Some err => fail_500 (MeshkitErrCreateDir err "Error creating temp directory")
        | None => ret tt
        end) ;;
      defer (DeferRemoveAll modelDir) ;;
      model <- export_write_tree outputFormat versionDir model ;;
      byt <- export_package fileTypes modelDir model ;;
      (* 3. Send response *)
      Header_Set "Content-Length" (pretty (String.length byt)) ;;
      err <- rw_Write byt ;;
      match err with
      | Some err =>
          emit (EvLogError (ErrGetMeshModels err)) ;;
          http_Error (error_text E (ErrGetMeshModels err)) StatusInternalServerError
      | None => ret tt
      end
  end.

Definition ExportModel_body (q : Query) : M unit :=
  (* 1. Get the model data *)
  found <- registry_GetEntities (export_filter q) ;;
  export_entities q found.

Definition ExportModel (q : Query) (w : World) : Outcome * World :=
  run_handler (ExportModel_body q) w.

(** *** [RegisterMeshmodels] *)

Definition csv_prefix : string := "data:text/csv;base64,".

Definition fetchBase64DataFromDataURL (dataURL : string) : string + error :=
  if GoStrings.HasPrefix dataURL csv_prefix then
    let base64Data := GoStrings.TrimPrefix dataURL csv_prefix in
    match Base64.DecodeString base64Data with
    | Some data => inl data
    | None => inr CorruptInputError
    end
  else inr (ErrFileType "file is not of type csv").

(** [h.handleError], [h.sendErrorEvent], [return]. *)
Definition fail_with {A : Type} (err : error) (msg : string) : M A :=
  emit (EvHandleError err msg) ;;
  emit (EvSendErrorEvent msg err) ;;
  go_return.

(** [registrationHelper.Register(registration.NewDir(path))]. *)
Definition helper_register (path : string) : M unit :=
  emit (EvRegister path) ;;
  act (fun w =>
    upd_helper (fun ds => ds ++ [path])
      (upd_registry (helper_Register E path (fs w)) w)).

Definition create_if_missing (modelLocation : string) : M unit :=
  missing <- stat_IsNotExist modelLocation ;;
  if missing then (_ <- os_MkdirAll modelLocation ;; ret tt) else ret tt.

Definition import_csv (importRequest : ImportRequest) : M unit :=
  let importBody := importBody importRequest in
  emit EvSetLogger ;;
  match SetLogger E false with
  | Some err =>
      emit (EvHandleError err "Error setting logger") ;;
      emit (EvSendErrorEvent "Error setting logger" err)
  | None => ret tt
  end ;;
  modelCSVData <-
    match fetchBase64DataFromDataURL (ModelCsv importBody) with
    | inr err => fail_with err "Error fetching or decoding Model CSV"
    | inl data => ret data
    end ;;
  created <- os_CreateTemp "model-*.csv" ;;
  modelCsvFile <-
    match created with
    | inr err =>
        fail_with (ErrCreateFile err "Error creating temp file for Model CSV")
          "Error creating temp file for Model CSV"
    | inl file => ret file
    end ;;
  defer (DeferClose modelCsvFile) ;;
  err <- file_Write modelCsvFile modelCSVData ;;
  match err with
  | Some err =>
      fail_with (ErrWritingIntoFile err "Error writing Model CSV to temp file")
        "Error writing Model CSV to temp file"
  | None => ret tt
  end ;;
  componentCSVData <-
    match fetchBase64DataFromDataURL (ComponentCsv importBody) with
    | inr err => fail_with err "Error fetching or decoding Component CSV"
    | inl data => ret data
    end ;;
  created <- os_CreateTemp "component-*.csv" ;;
  componentCsvFile <-
    match created with
    | inr err =>
        fail_with (ErrCreateFile err "Error creating temp file for Component CSV")
          "Error creating temp file for Component CSV"
    | inl file => ret file
    end ;;
  defer (DeferClose componentCsvFile) ;;
  err <- file_Write componentCsvFile componentCSVData ;;
  match err with
  | Some err =>
      fail_with (ErrWritingIntoFile err "Error writing Component CSV to temp file")
        "Error writing Component CSV to temp file"
  | None => ret tt
  end ;;
  relationshipCSVData <-
    match fetchBase64DataFromDataURL (RelationshipCSV importBody) with
    | inr err => fail_with err "Error fetching or decoding Model CSV"
    | inl data => ret data
    end ;;
  created <- os_CreateTemp "relationship-*.csv" ;;
  relationshipCsvFile <-
    match created with
    | inr err =>
        fail_with (ErrCreateFile err "Error creating temp file for Model CSV")
          "Error creating temp file for Model CSV"
    | inl file => ret file
    end ;;
  defer (DeferClose relationshipCsvFile) ;;
  err <- file_Write relationshipCsvFile relationshipCSVData ;;
  match err with
  | Some err =>
      fail_with (ErrWritingIntoFile err "Error writing Model CSV to temp file")
        "Error writing Model CSV to temp file"
  | None => ret tt
  end ;;
  let modelLocation := filepath_Join [HOME E; RegistryLocation E] in
  create_if_missing modelLocation ;;
  created <- os_MkdirTemp "tempData" ;;
  tempDir <-
    match created with
    | inr err => fail_with err "Error creating temporary directory"
    | inl dir => ret dir
    end ;;
  defer (DeferRemoveAll tempDir) ;;
  emit (EvInvokeGenerationFromSheet tempDir modelCsvFile componentCsvFile
          relationshipCsvFile) ;;
  err <- on_disk (InvokeGenerationFromSheet E tempDir modelCsvFile componentCsvFile
                    relationshipCsvFile) ;;
  match err with
  | Some err => fail_with err "Error invoking generation from sheet"
  | None => ret tt
  end ;;
  emit (EvSendEventForImport 0 EmptyString true) ;;
  emit (EvGetModelDirectoryPaths tempDir) ;;
  disk <- get_fs ;;
  let '(modelDirPaths, err) := GetModelDirectoryPaths E tempDir disk in
  match err with
  | Some err => emit (EvLogError (ErrSeedingComponents err))
  | None => ret tt
  end ;;
  (if Register importRequest
   then for_range modelDirPaths (fun dirPath => helper_register dirPath)
   else go_return) ;;
  create_if_missing modelLocation ;;
  emit (EvCopyDirectory tempDir modelLocation) ;;
  err <- on_disk (CopyDirectory E tempDir modelLocation) ;;
  match err with
  | Some err => fail_with err "Error copying data to model location"
  | None => ret tt
  end.

(** The model of a URL import, as the handler builds it from the
    request, completes it with defaults and lower-cases its name. *)
Definition request_model (importRequest : ImportRequest) : ModelCSV :=
  let m := ib_Model (importBody importRequest) in
  {| csv_Model := im_Model m;
     csv_ModelDisplayName := im_ModelDisplayName m;
     csv_PrimaryColor := im_PrimaryColor m;
     csv_SecondaryColor := im_SecondaryColor m;
     csv_Category := im_Category m;
     csv_Registrant := im_Registrant m;
     csv_Shape := im_Shape m;
     csv_SubCategory := im_SubCategory m;
     csv_SVGColor := im_SvgColor m;
     csv_SVGWhite := im_SvgWhite m;
     csv_SVGComplete := im_SvgComplete m;
     csv_IsAnnotation := Strconv.FormatBool (im_IsAnnotation m);
     csv_PublishToRegistry := Strconv.FormatBool (im_PublishToRegistry m);
     csv_Group := EmptyString |}.

Definition scaffold_model (importRequest : ImportRequest) : ModelCSV :=
  let model := request_model importRequest in
  let model := setDefaultValues E model in
  (* Model generation starts from here *)
  set_csv_Model (GoStrings.ToLower (unicode_lower E) (csv_Model model)) model.

Definition import_url (importRequest : ImportRequest) : M unit :=
  let model := scaffold_model importRequest in
  let url := Url (importBody importRequest) in
  emit (EvGenerateModels (csv_Registrant model) url (csv_Model model)) ;;
  generated <- on_disk (GenerateModels E (csv_Registrant model) url (csv_Model model)) ;;
  match generated with
  | inr err => fail_with err "Error generating model"
  | inl (pkg, version) =>
      emit (EvCreateVersionedDirectory version (csv_Model model)) ;;
      paths <- on_disk (CreateVersionedDirectoryForModelAndComp E version
                          (csv_Model model)) ;;
      match paths with
      | inr err => fail_with err "Error decoding JSON into ModelCSV"
      | inl (modelDirPath, compDirPath) =>
          let filePath := filepath_Join [modelDirPath; csv_Model model +:+ ".json"] in
          emit (EvCreateModelDefinition model version (DefVersion E)) ;;
          let modelDef := CreateModelDefinition E model version (DefVersion E) in
          emit (EvWriteModelDefinition modelDef filePath "json") ;;
          err <- on_disk (WriteModelDefinition E modelDef filePath "json") ;;
          match err with
          | Some err => fail_with err "Error decoding JSON into ModelCSV"
          | None => ret tt
          end ;;
          emit (EvGenerateComponentsFromPkg pkg compDirPath (DefVersion E) modelDef
                  (csv_Group model)) ;;
          comps <- on_disk (GenerateComponentsFromPkg E pkg compDirPath (DefVersion E)
                              modelDef (csv_Group model)) ;;
          match comps with
          | inr err => fail_with err "Error generating components"
          | inl lengthofComps =>
              emit (EvSendEventForImport lengthofComps (csv_Model model) false) ;;
              if Register importRequest
              then helper_register modelDirPath
              else go_return
          end
      end
  end.

(** [handlers.CreateTemp(name, data)], whose file the handler then holds
    open. *)
Definition handlers_CreateTemp (name data : string) : M (string + error) :=
  emit (EvCreateTempNamed name) ;;
  created <- on_disk (CreateTemp E name data) ;;
  match created with
  | inl file => act (upd_open (cons file)) ;; ret (inl file)
  | inr err => ret (inr err)
  end.

Definition import_file (importRequest : ImportRequest) : M unit :=
  let importBody := importBody importRequest in
  match json_Marshal E (ModelFile importBody) with
  | inr _ =>
      http_Error "Internal server error" StatusInternalServerError ;;
      go_return
  | inl base64Data =>
      let base64String := base64Data in
      (* Remove double quotes *)
      base64String <-
        match GoStrings.slice base64String 1
                (Z.of_nat (String.length base64String) - 1) with
        | Some s => ret s
        | None => go_panic
        end ;;
      match Base64.DecodeString base64String with
      | None =>
          http_Error "Invalid base64 data" StatusBadRequest ;;
          go_return
      | Some decodedBytes =>
          created <- handlers_CreateTemp (FileName importBody) decodedBytes ;;
          match created with
          | inr err =>
              let err := MeshkitErrCreateFile err "Error creating temp file" in
              emit (EvHandleError err (error_text E err)) ;;
              emit (EvSendErrorEvent "Error creating temp file" err) ;;
              go_return
          | inl tempFile =>
              defer (DeferRemove tempFile) ;;
              if Register importRequest
              then helper_register tempFile ;; act (file_Close tempFile)
              else ret tt
          end
      end
  end.

Definition downloadFile (url : string) : M (string + error) :=
  emit (EvHttpGet url) ;;
  match http_Get E url with
  | inl err =>
      ret (inr (Errorf ("error downloading file from URL: " +:+ error_text E err)))
  | inr (StatusCode, read) =>
      if bool_decide (StatusCode ≠ StatusOK) then
        ret (inr (Errorf ("failed to download file. Status code: " +:+ pretty StatusCode)))
      else
        match read with
        | inl err =>
            ret (inr (Errorf ("error reading downloaded file: " +:+ error_text E err)))
        | inr fileData => ret (inl fileData)
        end
  end.

Definition import_urlImport (importRequest : ImportRequest) : M unit :=
  (* Download the file from the provided URL *)
  downloaded <- downloadFile (Url (importBody importRequest)) ;;
  match downloaded with
  | inr err => fail_with err "Error downloading file from URL"
  | inl fileData =>
      let isOCI := IsOCIArtifact E fileData in
      let fileType := if negb isOCI then detectFileType E fileData else ".tar" in
      let name := "model" +:+ fileType in
      (* write the file to a temp file *)
      created <- handlers_CreateTemp name fileData ;;
      match created with
      | inr err =>
          fail_with (MeshkitErrCreateFile err "Error creating temp file")
            "Error creating temp file"
      | inl tempFile =>
          defer (DeferRemove tempFile) ;;
          if Register importRequest
          then helper_register tempFile ;; act (file_Close tempFile)
          else ret tt
      end
  end.

Definition finish_registration : M unit :=
  emit EvHandleRegistrationAndError ;;
  fun w =>
    let response := handleRegistrationAndError E (helper w) (fs w) in
    let message := writeMessageString E response in
    let errMsg :=
      if bool_decide (0 < TotalErrCount (entityCount response))
      then ErrMsgContruct E response else EmptyString in
    emit (EvSendSuccessResponse message errMsg response) w.

(** The body of the handler; [decoded] is what decoding the request body
    as JSON gives. *)
Definition RegisterMeshmodels_body (decoded : ImportRequest + error) : M unit :=
  defer DeferCloseBody ;;
  match decoded with
  | inr err =>
      emit (EvLogInfo "Error in unmarshalling request body") ;;
      emit (EvSendErrorEvent "Error in unmarshalling request body" err) ;;
      http_Error "Invalid request format" StatusBadRequest ;;
      go_return
  | inl importRequest =>
      let uploadType := UploadType importRequest in
      (if bool_decide (uploadType = "csv") then import_csv importRequest
       else if bool_decide (uploadType = "url") then import_url importRequest
       else if bool_decide (uploadType = "file") then import_file importRequest
       else if bool_decide (uploadType = "urlImport") then import_urlImport importRequest
       else ret tt) ;;
      finish_registration
  end.

Definition RegisterMeshmodels (decoded : ImportRequest + error) (w : World)
  : Outcome * World :=
  run_handler (RegisterMeshmodels_body decoded) w.

End Handlers.

(** ** A concrete environment

    A small world to run the handlers in: every system call succeeds, the
    sheet generator writes one model directory, the registry keeps what it
    is given. *)
Module Sample.

Definition demo_model (name : string) : ModelDefinition :=
  {| Id := "id-" +:+ name; Name := name; DisplayName := name;
     Version := "v1.0.0"; Model := {| mv_Version := "v0.1.0" |};
     RegistrantKind := "github"; SvgColor := "ui/public/static/img/color.svg";
     SvgWhite := "ui/public/static/img/white.svg";
     Components := None; Relationships := None |}.

Definition demo_component (kind : string) : ComponentDefinition :=
  {| comp_DisplayName := kind; comp_Kind := kind; comp_Schema := "{}";
     comp_SvgColor := "ui/public/static/img/color.svg";
     comp_Model := demo_model "stale" |}.

Definition demo_relationship (kind : string) : RelationshipDefinition :=
  {| rel_Kind := kind; rel_SubType := "inventory"; rel_Model := demo_model "stale" |}.

Definition full_model : ModelDefinition :=
  {| Id := "id-demo"; Name := "demo"; DisplayName := "Demo";
     Version := "v1.0.0"; Model := {| mv_Version := "v0.1.0" |};
     RegistrantKind := "github"; SvgColor := "ui/public/static/img/color.svg";
     SvgWhite := "ui/public/static/img/white.svg";
     Components := Some (DynComponents [demo_component "Pod"; demo_component "Service"]);
     Relationships := Some (DynRelationships [demo_relationship "edge"]) |}.

(** Copying a tree: every entry below [src] reappears below [dst]. *)
Definition copy_tree (src dst : string) (m : FS) : FS :=
  foldr (fun kv acc =>
           if Files.is_under src kv.1
           then <[dst +:+ GoStrings.drop_chars (String.length src) kv.1 := kv.2]> acc
           else acc)
        m (map_to_list m).

Definition write_file (path data : string) (m : FS) : FS := <[path := File data]> m.

Definition sheet_generator (dir model comp rel : string) (m : FS) : option error * FS :=
  match m !! model with
  | Some (File _) =>
      (None,
       write_file (dir +:+ "/demo/v0.1.0/v1.0.0/model.json") "{}"
         (<[dir +:+ "/demo/v0.1.0/v1.0.0" := Directory]>
            (<[dir +:+ "/demo/v0.1.0" := Directory]>
               (<[dir +:+ "/demo" := Directory]> m))))
  | _ => (Some (ExternalError "cannot read the model sheet"), m)
  end.

Definition model_dirs (dir : string) (m : FS) : list string * option error :=
  match m !! (dir +:+ "/demo") with
  | Some Directory => ([dir +:+ "/demo"], None)
  | _ => ([], None)
  end.

Definition versioned_directory (home version name : string) (m : FS)
  : ((string * string) + error) * FS :=
  let modelDir := home +:+ "/.meshery/models/" +:+ name +:+ "/" +:+ version +:+ "/v1.0.0" in
  match Files.mkdir_all (modelDir +:+ "/components") m with
  | Some m' => (inl (modelDir, modelDir +:+ "/components"), m')
  | None => (inr (ExternalError "cannot create the directory"), m)
  end.

Definition model_of_csv (m : ModelCSV) (version defVersion : string) : ModelDefinition :=
  {| Id := EmptyString; Name := csv_Model m; DisplayName := csv_ModelDisplayName m;
     Version := defVersion; Model := {| mv_Version := version |};
     RegistrantKind := csv_Registrant m; SvgColor := csv_SVGColor m;
     SvgWhite := csv_SVGWhite m; Components := None; Relationships := None |}.

Definition defaults (m : ModelCSV) : ModelCSV :=
  {| csv_Model := csv_Model m;
     csv_ModelDisplayName := csv_ModelDisplayName m;
     csv_PrimaryColor :=
       if nonempty (csv_PrimaryColor m) then csv_PrimaryColor m else "#00b39f";
     csv_SecondaryColor :=
       if nonempty (csv_SecondaryColor m) then csv_SecondaryColor m else "#00D3A9";
     csv_Category :=
       if nonempty (csv_Category m) then csv_Category m else "Uncategorized";
     csv_Registrant := csv_Registrant m;
     csv_Shape := if nonempty (csv_Shape m) then csv_Shape m else "rectangle";
     csv_SubCategory := csv_SubCategory m;
     csv_SVGColor := csv_SVGColor m;
     csv_SVGWhite := csv_SVGWhite m;
     csv_SVGComplete := csv_SVGComplete m;
     csv_IsAnnotation := csv_IsAnnotation m;
     csv_PublishToRegistry := csv_PublishToRegistry m;
     csv_Group := csv_Group m |}.

Definition matches (f : ModelFilter) (e : Entity) : bool :=
  match e with
  | EModelDefinition m =>
      (negb (nonempty (mf_Id f)) || bool_decide (Id m = mf_Id f))
      && (negb (nonempty (mf_Name f)) || bool_decide (Name m = mf_Name f))
  | _ => false
  end.

Definition first_match (f : ModelFilter) (reg : list Entity) : list Entity + error :=
  inl (filter (fun e => matches f e = true) reg).

Definition env_with (lookup : ModelFilter -> list Entity -> list Entity + error) : Env :=
  {| TempDir := "/tmp";
     HOME := "/home/meshery";
     filepath_Clean := fun p => p;
     random_name := fun k => pretty k;
     fault := fun _ => None;
     unicode_lower := fun s => s;
     error_text := fun _ => "error";
     json_Marshal := fun s => inl (GoStrings.quote +:+ s +:+ GoStrings.quote);
     http_Get := fun _ => inr (200, inr "archive-bytes");
     RegistryLocation := ".meshery/models";
     DefVersion := "v1.0.0";
     CopyDirectory := fun src dst m => (None, copy_tree src dst m);
     CreateVersionedDirectoryForModelAndComp :=
       fun version name m => versioned_directory "/home/meshery" version name m;
     setDefaultValues := defaults;
     CreateTemp := fun name data m => (inl ("/tmp/" +:+ name), write_file ("/tmp/" +:+ name) data m);
     detectFileType := fun _ => ".tar";
     GetModelDirectoryPaths := model_dirs;
     handleRegistrationAndError := fun dirs _ =>
       {| entityCount := {| ModelCount := length dirs; CompCount := 0;
                            RelCount := 0; TotalErrCount := 0 |};
          ErrMsg := EmptyString |};
     writeMessageString := fun _ => "imported";
     ErrMsgContruct := fun _ => EmptyString;
     SetLogger := fun _ => None;
     InvokeGenerationFromSheet := sheet_generator;
     helper_Register := fun _ _ reg => reg ++ [EModelDefinition (demo_model "demo")];
     GenerateModels := fun _ url _ m => (inl (PackageHandle url, "v0.1.0"), m);
     CreateModelDefinition := model_of_csv;
     WriteModelDefinition := fun _ path _ m => (None, write_file path "{model}" m);
     GenerateComponentsFromPkg := fun _ dir _ _ _ m =>
       (inl 1, write_file (dir +:+ "/Pod.json") "{component}" m);
     IsOCIArtifact := fun _ => false;
     GetEntities := lookup;
     model_ReplaceSVGData := fun m _ => (m, None);
     comp_ReplaceSVGData := fun c _ => (c, None);
     WriteComponentDefinition := fun c dir fmt m =>
       (None, write_file (dir +:+ "/" +:+ comp_Kind c +:+ "." +:+ fmt) "{component}" m);
     WriteRelationshipDefinition := fun r dir fmt m =>
       (None, write_file (dir +:+ "/" +:+ rel_Kind r +:+ "." +:+ fmt) "{relationship}" m);
     BuildImage := fun dir _ => inl (ImageOf dir);
     SaveOCIArtifact := fun _ path _ m => (None, write_file path "oci-tar" m);
     Compress := fun _ _ => inl "gzip-bytes" |}.

Definition env : Env := env_with first_match.

(** A registry whose lookup answers with everything it holds. *)
Definition env_unfiltered : Env := env_with (fun _ reg => inl reg).

Definition disk : FS := <["/tmp" := Directory]> (<["/home/meshery" := Directory]> ∅).

Definition no_model : ImportModel :=
  {| im_Model := EmptyString; im_ModelDisplayName := EmptyString;
     im_PrimaryColor := EmptyString; im_SecondaryColor := EmptyString;
     im_Category := EmptyString; im_Registrant := EmptyString;
     im_Shape := EmptyString; im_SubCategory := EmptyString;
     im_SvgColor := EmptyString; im_SvgWhite := EmptyString;
     im_SvgComplete := EmptyString; im_IsAnnotation := false;
     im_PublishToRegistry := false |}.

(** [bmFtZQ==] is the base64 of the bytes [name]. *)
Definition sheet : string := "data:text/csv;base64,bmFtZQ==".

Definition csv_request (register : bool) : ImportRequest :=
  {| UploadType := "csv"; Register := register;
     importBody := {| ModelCsv := sheet; ComponentCsv := sheet;
                      RelationshipCSV := sheet; ib_Model := no_model;
                      Url := EmptyString; ModelFile := EmptyString;
                      FileName := EmptyString |} |}.

End Sample.

(** Requests to run in the sample world. *)
Module Requests.

Definition run_import (importRequest : ImportRequest) : World :=
  (RegisterMeshmodels Sample.env (inl importRequest) (initial_world Sample.disk [])).2.

Definition demo_registry : list Entity := [EModelDefinition Sample.full_model].

Definition q_demo : Query := <["file_type" := ["oci"]]> (<["id" := ["id-demo"]]> ∅).
Definition q_missing : Query := <["id" := ["missing"]]> ∅.

Definition run_export (q : Query) : World :=
  (ExportModel Sample.env q (initial_world Sample.disk demo_registry)).2.

(** A CSV import whose component sheet is not announced as CSV. *)
Definition csv_bad_component : ImportRequest :=
  {| UploadType := "csv"; Register := true;
     importBody := {| ModelCsv := Sample.sheet;
                      ComponentCsv := "data:text/plain;base64,bmFtZQ==";
                      RelationshipCSV := Sample.sheet;
                      ib_Model := Sample.no_model;
                      Url := EmptyString; ModelFile := EmptyString;
                      FileName := EmptyString |} |}.


(** A URL import of a model named in mixed case. *)
Definition url_request : ImportRequest :=
  {| UploadType := "url"; Register := true;
     importBody := {| ModelCsv := EmptyString; ComponentCsv := EmptyString;
                      RelationshipCSV := EmptyString;
                      ib_Model :=
                        {| im_Model := "KubeRnetes";
                           im_ModelDisplayName := "Kubernetes";
                           im_PrimaryColor := EmptyString;
                           im_SecondaryColor := EmptyString;
                           im_Category := EmptyString;
                           im_Registrant := "github";
                           im_Shape := EmptyString;
                           im_SubCategory := EmptyString;
                           im_SvgColor := EmptyString;
                           im_SvgWhite := EmptyString;
                           im_SvgComplete := EmptyString;
                           im_IsAnnotation := false;
                           im_PublishToRegistry := false |};
                      Url := "git://github.com/kubernetes/kubernetes/master/api";
                      ModelFile := EmptyString; FileName := EmptyString |} |}.

(** An uploaded file and a remote archive, not to be registered. *)
Definition file_request (register : bool) : ImportRequest :=
  {| UploadType := "file"; Register := register;
     importBody := {| ModelCsv := EmptyString; ComponentCsv := EmptyString;
                      RelationshipCSV := EmptyString; ib_Model := Sample.no_model;
                      Url := EmptyString; ModelFile := "bmFtZQ==";
                      FileName := "design.yaml" |} |}.

Definition archive_request (register : bool) : ImportRequest :=
  {| UploadType := "urlImport"; Register := register;
     importBody := {| ModelCsv := EmptyString; ComponentCsv := EmptyString;
                      RelationshipCSV := EmptyString; ib_Model := Sample.no_model;
                      Url := "https://example.org/model.tar"; ModelFile := EmptyString;
                      FileName := EmptyString |} |}.

End Requests.

(** * Properties *)

(** ** Vocabulary of the statements *)

(** [triple P m Q X]: run from a world that satisfies [P], the statement [m]
    either falls through with a value [a] into a world that satisfies
    [Q a], or leaves by [return] or by a panic in a world that satisfies
    [X]. *)
Definition triple {A : Type} (P : World -> Prop) (m : M A)
    (Q : A -> World -> Prop) (X : World -> Prop) : Prop :=
  forall w, P w ->
    match (m w).1 with
    | Val a => Q a (m w).2
    | Returned | Panicked => X (m w).2
    end.

(** No status 200 has gone out. *)
Definition not_ok (r : Response) : Prop :=
  forall h, sent r <> Some (StatusOK, h).

(** Nothing was written to the response yet; an answer other than 200 went
    out, or none. *)
Definition untouched (w : World) : Prop := resp w = empty_response.
Definition failed (w : World) : Prop := not_ok (resp w).

(** No answer has gone out. *)
Definition unanswered (w : World) : Prop := sent (resp w) = None.

(** The headers of a tar answer. *)
Definition tar_headers (name byt : string) : Header :=
  <["Content-Length" := [pretty (String.length byt)]]>
    (<["Content-Disposition" := [attachment (name +:+ ".tar")]]>
       (<["Content-Type" := ["application/x-tar"]]> ∅)).


Definition is_create (ev : Event) : bool :=
  match ev with
  | EvCreateTemp _ => true
  | _ => false
  end.

(** The number of temporary files made by [os.CreateTemp]. *)
Definition created (t : list Event) : nat := length (filter (fun ev => is_create ev = true) t).


(** The event sent when the sheets were turned into models. *)
Definition generated : Event := EvSendEventForImport 0 EmptyString true.

(** [dir] is the scratch directory the generator was run in, and its
    removal is pending. *)
Definition scratch (dir : string) (w : World) : Prop :=
  DeferRemoveAll dir ∈ defers w
  /\ exists model comp rel, EvInvokeGenerationFromSheet dir model comp rel ∈ trace w.

Definition is_removal (ev : Event) : bool :=
  match ev with
  | EvRemove _ | EvRemoveAll _ => true
  | _ => false
  end.

Definition is_copy (ev : Event) : bool :=
  match ev with
  | EvCopyDirectory _ _ => true
  | _ => false
  end.

(** The event a deferred call leaves in the trace. *)
Definition deferred_event (d : Deferred) : Event :=
  match d with
  | DeferCloseBody => EvCloseBody
  | DeferClose f => EvClose f
  | DeferRemove p => EvRemove p
  | DeferRemoveAll p => EvRemoveAll p
  end.

Definition is_register (ev : Event) : bool :=
  match ev with
  | EvRegister _ => true
  | _ => false
  end.

(** The registry holds [reg] and the helper was never called. *)
Definition registry_untouched (reg : list Entity) (w : World) : Prop :=
  registry w = reg /\ Forall (fun ev => is_register ev = false) (trace w).

Section Vocabulary.

Variable E : Env.

(** What a status 200 answer looks like for the entities [found]. *)
Definition tar_answer (found : list Entity + error) (w : World) : Prop :=
  forall h, sent (resp w) = Some (StatusOK, h) ->
    exists m rest,
      found = inl (EModelDefinition m :: rest)
      /\ h !! "Content-Type" = Some ["application/x-tar"]
      /\ h !! "Content-Disposition"
         = Some [attachment (Name (model_ReplaceSVGData E m "../../").1 +:+ ".tar")].

(** The events that write the package refer to [header], and go to the
    places of the package layout under [versionDir]. *)
Definition writes_header (header : ModelDefinition) (versionDir fmt : string)
    (ev : Event) : Prop :=
  match ev with
  | EvWriteModelDefinition m path f =>
      m = header /\ f = fmt
      /\ path = filepath_Join E [versionDir; "model." +:+ fmt]
  | EvWriteComponentDefinition c dir f =>
      comp_Model c = header /\ f = fmt
      /\ dir = filepath_Join E [versionDir; "components"]
  | EvWriteRelationshipDefinition r dir f =>
      rel_Model r = header /\ f = fmt
      /\ dir = filepath_Join E [versionDir; "relationships"]
  | _ => True
  end.

Definition export_versionDir (model : ModelDefinition) : string :=
  filepath_Join E [filepath_Join E [TempDir E; Name model];
                   mv_Version (Model model); Version model].

(** The calls of a URL import that compute the package path and make and
    write the model definition are given [name]. *)
Definition scaffolds_with (name : string) (ev : Event) : Prop :=
  match ev with
  | EvGenerateModels _ _ n => n = name
  | EvCreateVersionedDirectory _ n => n = name
  | EvCreateModelDefinition m _ _ => csv_Model m = name
  | EvWriteModelDefinition def path _ =>
      (exists m version,
          csv_Model m = name /\ def = CreateModelDefinition E m version (DefVersion E))
      /\ exists modelDirPath, path = filepath_Join E [modelDirPath; name +:+ ".json"]
  | EvGenerateComponentsFromPkg _ _ _ def _ =>
      exists m version,
        csv_Model m = name /\ def = CreateModelDefinition E m version (DefVersion E)
  | EvSendEventForImport _ n _ => n = name
  | _ => True
  end.

Definition modelLocation : string := filepath_Join E [HOME E; RegistryLocation E].

Definition copied (w : World) : Prop :=
  exists dir, EvCopyDirectory dir modelLocation ∈ trace w /\ scratch dir w.


(** The claim about the durable copy, as the specification words it: once
    the models were generated, the scratch directory is copied to the
    registry location, whatever [Register] is. *)
Definition copies_regardless (importRequest : ImportRequest)
    (disk : FS) (reg : list Entity) : Prop :=
  UploadType importRequest = "csv" ->
  let w := (RegisterMeshmodels E (inl importRequest) (initial_world disk reg)).2 in
  generated ∈ trace w ->
  exists dir, EvCopyDirectory dir modelLocation ∈ trace w.

End Vocabulary.

#[global] Arguments created : simpl never.

Section Claims.

Variable E : Env.

#[global] Arguments export_filter : simpl never.
#[global] Arguments not_found_message : simpl never.
#[global] Arguments filepath_Join : simpl never.
#[global] Arguments scaffold_model : simpl never.

(** ** Query parameters of the export *)

Lemma ParseBool_false_iff (s : string) :
  Strconv.ParseBool s = (false, false) <-> s ∈ Strconv.false_words.
Proof.
  unfold Strconv.ParseBool.
  case_bool_decide as Ht; [| case_bool_decide as Hf]; split; intros H'; try done.
  exfalso. unfold Strconv.true_words in Ht.
  rewrite !elem_of_cons, elem_of_nil in Ht.
  destruct Ht as [-> | [-> | [-> | [-> | [-> | [-> | []]]]]]];
    apply (bool_decide_pack _) in H'; vm_compute in H'; exact H'.
Qed.

Lemma bool_param_false_iff (q : Query) (key : string) :
  bool_param q key = false <-> Query_Get q key ∈ Strconv.false_words.
Proof.
  rewrite <- ParseBool_false_iff. unfold bool_param, Strconv.ParseBool.
  repeat case_bool_decide; split; intros H'; congruence.
Qed.

Lemma Query_Get_absent (q : Query) (key : string) :
  q !! key = None -> Query_Get q key = EmptyString.
Proof. intros H. unfold Query_Get. by rewrite H. Qed.

(** C7. The [components] and [relationships] flags of the filter the export
    hands to the registry are on when the query parameter is absent and when
    its value does not parse as a boolean; a flag is off exactly when the
    value is one of the spellings of false that [strconv.ParseBool]
    accepts. *)
Theorem C7_boolean_parameters_default_to_true (q : Query) :
  let flag key := bool_param q key in
  mf_Components (export_filter q) = flag "components"
  /\ mf_Relationships (export_filter q) = flag "relationships"
  /\ forall key : string,
       (q !! key = None -> flag key = true)
       /\ (snd (Strconv.ParseBool (Query_Get q key)) = true -> flag key = true)
       /\ (flag key = false <-> Query_Get q key ∈ Strconv.false_words).
Proof.
  cbn zeta. split; [reflexivity |]. split; [reflexivity |].
  intros key. split; [| split].
  - intros Habsent. unfold bool_param.
    rewrite (Query_Get_absent _ _ Habsent). reflexivity.
  - unfold bool_param. destruct (Strconv.ParseBool (Query_Get q key)) as [v err].
    cbn. intros ->. reflexivity.
  - apply bool_param_false_iff.
Qed.

(** ** The answers of the export *)

Lemma contains_intro (pre s post : string) : GoStrings.contains (pre +:+ s +:+ post) s.
Proof. by exists pre, post. Qed.

Lemma append_cons (x : ascii) (a b : string) : String x a +:+ b = String x (a +:+ b).
Proof. reflexivity. Qed.

Lemma append_assoc (a b c : string) : (a +:+ b) +:+ c = a +:+ (b +:+ c).
Proof.
  induction a as [| x a IH]; [reflexivity |].
  by rewrite !append_cons, IH.
Qed.

Lemma contains_append_l (t u s : string) :
  GoStrings.contains t s -> GoStrings.contains (t +:+ u) s.
Proof.
  intros (pre & post & ->). exists pre, (post +:+ u).
  by rewrite !append_assoc.
Qed.

Lemma contains_append_r (t u s : string) :
  GoStrings.contains u s -> GoStrings.contains (t +:+ u) s.
Proof.
  intros (pre & post & ->). exists (t +:+ pre), post.
  by rewrite !append_assoc.
Qed.

Lemma contains_empty (t : string) : GoStrings.contains t EmptyString.
Proof. exists EmptyString, t. done. Qed.

Lemma nonempty_false (s : string) : nonempty s = false -> s = EmptyString.
Proof. unfold nonempty. case_bool_decide; [done | discriminate]. Qed.

Create HintDb contains.
#[local] Hint Resolve contains_append_l contains_append_r contains_empty
  contains_intro : contains.

(** The 404 message names each of the identifier, name and version that the
    request gave. *)
Lemma not_found_message_contains (modelId name version : string) :
  let msg := not_found_message modelId name version in
  GoStrings.contains msg modelId
  /\ GoStrings.contains msg name
  /\ GoStrings.contains msg version.
Proof.
  cbn zeta. unfold not_found_message.
  destruct (nonempty modelId) eqn:Hi; destruct (nonempty name) eqn:Hn;
    destruct (nonempty version) eqn:Hv;
    try (apply nonempty_false in Hi; subst modelId);
    try (apply nonempty_false in Hn; subst name);
    try (apply nonempty_false in Hv; subst version);
    repeat split; auto 10 with contains.
Qed.

(** C5. When the registry answers the lookup without an error and with no
    entity, the export sends status 404 with the not-found message, which
    contains the identifier, the name and the version of the request; when
    the registry answers with an error, it sends status 500 with the text
    of that error instead. *)
Theorem C5_not_found_is_404 (q : Query) (disk : FS) (reg : list Entity)
    (Hnone : GetEntities E (export_filter q) reg = inl []) :
  let msg := not_found_message (Query_Get q "id") (Query_Get q "name")
               (Query_Get q "version") in
  let answer found :=
    resp (run_handler (export_entities E q found)
            (record (EvGetEntities (export_filter q)) (initial_world disk reg))).2 in
  resp (ExportModel E q (initial_world disk reg)).2 = answer (inl [])
  /\ sent (answer (inl [])) = Some (StatusNotFound, ∅)
  /\ body (answer (inl [])) = msg +:+ GoStrings.newline
  /\ GoStrings.contains msg (Query_Get q "id")
  /\ GoStrings.contains msg (Query_Get q "name")
  /\ GoStrings.contains msg (Query_Get q "version")
  /\ forall err : error,
       sent (answer (inr err))
         = Some (StatusInternalServerError,
                 <["X-Content-Type-Options" := ["nosniff"]]>
                   (<["Content-Type" := ["text/plain; charset=utf-8"]]> ∅))
       /\ body (answer (inr err))
         = error_text E (ErrGetMeshModels err) +:+ GoStrings.newline.
Proof.
  cbn zeta.
  split.
  { unfold ExportModel, run_handler, ExportModel_body, registry_GetEntities.
    cbn. rewrite Hnone. reflexivity. }
  split; [reflexivity |]. split; [reflexivity |].
  pose proof (not_found_message_contains (Query_Get q "id") (Query_Get q "name")
                (Query_Get q "version")) as (Hi & Hn & Hv).
  repeat (split; [assumption |]).
  intros err. split; reflexivity.
Qed.

(** ** Rules for triples *)

Lemma triple_bind {A B : Type} (P : World -> Prop) (R : A -> World -> Prop)
    (m : M A) (k : A -> M B) (Q : B -> World -> Prop) (X : World -> Prop) :
  triple P m R X ->
  (forall a, triple (R a) (k a) Q X) ->
  triple P (bind m k) Q X.
Proof.
  intros Hm Hk w Hw. specialize (Hm w Hw). unfold bind.
  destruct (m w) as [[a | |] w1]; cbn in *; [| assumption ..].
  apply (Hk a w1 Hm).
Qed.

(** The rule for a statement that keeps an invariant. *)
Lemma triple_seq {A B : Type} (J : World -> Prop)
    (m : M A) (k : A -> M B) (Q : B -> World -> Prop) (X : World -> Prop) :
  triple J m (fun _ => J) X ->
  (forall a, triple J (k a) Q X) ->
  triple J (bind m k) Q X.
Proof. apply triple_bind. Qed.

Lemma triple_ret {A : Type} (P : World -> Prop) (a : A)
    (Q : A -> World -> Prop) (X : World -> Prop) :
  (forall w, P w -> Q a w) -> triple P (ret a) Q X.
Proof. intros H w Hw. cbn. auto. Qed.

Lemma triple_exit {A : Type} (P : World -> Prop)
    (Q : A -> World -> Prop) (X : World -> Prop) :
  (forall w, P w -> X w) ->
  triple P go_return Q X /\ triple P go_panic Q X.
Proof. intros H. split; intros w Hw; cbn; auto. Qed.

Lemma triple_exit_bind {A B : Type} (P : World -> Prop) (k : A -> M B)
    (Q : B -> World -> Prop) (X : World -> Prop) :
  triple P (@go_return A) (fun _ _ => False) X -> triple P (bind go_return k) Q X.
Proof. intros H w Hw. apply (H w Hw). Qed.

Lemma triple_weaken {A : Type} (P P' : World -> Prop) (m : M A)
    (Q Q' : A -> World -> Prop) (X X' : World -> Prop) :
  triple P' m Q' X' ->
  (forall w, P w -> P' w) ->
  (forall a w, Q' a w -> Q a w) ->
  (forall w, X' w -> X w) ->
  triple P m Q X.
Proof.
  intros Hm HP HQ HX w Hw. specialize (Hm w (HP w Hw)).
  destruct (m w).1; auto.
Qed.

Lemma triple_pure {A : Type} (P : World -> Prop) (fact : Prop) (m : M A)
    (Q : A -> World -> Prop) (X : World -> Prop) :
  (fact -> triple P m Q X) -> triple (fun w => P w /\ fact) m Q X.
Proof. intros H w [Hw Hfact]. by apply H. Qed.

Lemma triple_for_range {A : Type} (J : World -> Prop) (l : list A)
    (body : A -> M unit) (X : World -> Prop) :
  (forall x, x ∈ l -> triple J (body x) (fun _ => J) X) ->
  triple J (for_range l body) (fun _ => J) X.
Proof.
  induction l as [| x l IH]; intros Hbody.
  - apply triple_ret. auto.
  - cbn [for_range]. apply triple_seq.
    + apply Hbody. left.
    + intros _. apply IH. intros y Hy. apply Hbody. by right.
Qed.

(** What holds when the body is left also holds after the deferred calls,
    when these keep it. *)
Lemma run_handler_triple (P : World -> Prop) (body : M unit)
    (Q : World -> Prop) (F : World -> Prop) :
  triple P body (fun _ => Q) Q ->
  (forall w, Q w ->
     F (foldl (fun acc d => run_deferred d acc) (set_defers [] w) (defers w))) ->
  forall w, P w -> F (run_handler body w).2.
Proof.
  intros Hbody Hdefer w Hw. specialize (Hbody w Hw). unfold run_handler.
  destruct (body w) as [[[] | |] w1]; cbn in *; auto.
Qed.

(** Walking through a body whose statements keep the invariant of the
    triple; [leaf] closes the goals about single statements. *)
Ltac walk_with stop leaf :=
  repeat (stop tt;
    lazymatch goal with
    | |- triple _ (bind (ret ?a) ?k) _ _ => change (bind (ret a) k) with (k a); cbv beta
    | |- triple _ (bind go_return _) _ _ => apply triple_exit_bind
    | |- triple _ (if true then ?a else _) _ _ => change (triple _ a _ _)
    | |- triple _ (if false then _ else ?b) _ _ => change (triple _ b _ _)
    | |- triple _ (bind _ _) _ _ => apply triple_seq; [| intros ?]
    | |- triple _ (for_range _ _) _ _ => apply triple_for_range; intros ? ?
    | |- triple _ (match ?x with _ => _ end) _ _ => destruct x eqn:?
    | |- triple _ _ _ _ => progress leaf
    end).

(** Statements of the export that do write to the response. *)
Ltac before_response _ :=
  lazymatch goal with
  | |- triple _ (bind (Header_Add _ _) _) _ _ => fail
  | |- triple _ (bind (export_write_tree _ _ _ _) _) _ _ => fail
  | |- _ => idtac
  end.

(** Case analysis on an innermost scrutinee of the goal. *)
Ltac inner_case :=
  match goal with
  | |- context [match ?x with _ => _ end] =>
      lazymatch x with
      | context [match _ with _ => _ end] => fail
      | _ => destruct x eqn:?
      end
  end.

Ltac unfold_statements :=
  unfold fail_500, fail_with, http_Error, Fprintln, rw_Write, Header_Set, Header_Add,
    WriteHeader, log_if_error, helper_register, create_if_missing, handlers_CreateTemp,
    downloadFile, finish_registration, registry_GetEntities,
    os_CreateTemp, os_MkdirTemp, os_MkdirAll, os_ReadFile, os_WriteFile, file_Write,
    stat_IsNotExist, on_disk, get_fs, syscall, emit, act, defer,
    bind, ret, go_return, go_panic in *.

(** A single statement, by running it. *)
Ltac run_leaf close :=
  let w := fresh "w" in
  let Hw := fresh "Hw" in
  intros w Hw; unfold_statements; cbn; close w Hw.

Ltac quiet_close w Hw :=
  unfold untouched, failed, not_ok, freeze in *; cbn;
  repeat (first [rewrite Hw | inner_case]; cbn);
  first [ assumption | done | split; [assumption | reflexivity] | intros ?; congruence ].

Ltac quiet_walk := walk_with before_response ltac:(run_leaf quiet_close).

(** Invariants of the trace: every event recorded satisfies a predicate. *)
Ltac events_close w Hw :=
  repeat (inner_case; cbn);
  repeat (apply Forall_app_2; [| repeat constructor; cbn; try done]);
  try assumption.

Ltac anywhere _ := idtac.

(** Before any answer: [sent] is [None] on the way, and an exit leaves an
    answer other than 200, or none. *)
Ltac answer_close w Hw :=
  unfold unanswered, failed, not_ok, freeze in *; cbn;
  repeat (first [rewrite Hw | inner_case]; cbn);
  first [ assumption | reflexivity
        | left; intros ? [= Hcode _]; vm_compute in Hcode; discriminate ].

(** After an event was recorded, it stays in the trace. *)
Ltac wrote_close w Hw :=
  repeat (inner_case; cbn);
  try right; repeat (apply elem_of_app; left); assumption.

(** Membership of events in a trace that has grown. *)
Ltac in_trace :=
  solve [ rewrite ?elem_of_app, ?elem_of_cons, ?elem_of_nil; eauto 10 ].

Ltac not_in_grown_trace :=
  solve [ rewrite ?elem_of_app, ?elem_of_cons, ?elem_of_nil; intuition congruence ].

Ltac trace_close w Hw :=
  repeat (inner_case; cbn);
  repeat match goal with H : _ /\ _ |- _ => destruct H end;
  repeat split;
  first [ assumption | not_in_grown_trace | left; not_in_grown_trace
        | in_trace | right; in_trace ].

Ltac before_scratch _ :=
  lazymatch goal with
  | |- triple _ (bind (defer (DeferRemoveAll _)) _) _ _ => fail
  | |- _ => idtac
  end.

Ltac before_generated _ :=
  lazymatch goal with
  | |- triple _ (bind (emit (EvSendEventForImport _ _ _)) _) _ _ => fail
  | |- _ => idtac
  end.

Ltac before_copy _ :=
  lazymatch goal with
  | |- triple _ (bind (emit (EvCopyDirectory _ _)) _) _ _ => fail
  | |- _ => idtac
  end.

Ltac before_write _ :=
  lazymatch goal with
  | |- triple _ (bind (emit (EvWriteModelDefinition _ _ _)) _) _ _ => fail
  | |- _ => idtac
  end.

Ltac events_walk := walk_with anywhere ltac:(run_leaf events_close).

Ltac witnessed_close w Hw :=
  repeat (inner_case; cbn);
  repeat (apply Forall_app_2; [| repeat constructor; cbn; eauto]);
  try assumption.

Lemma ExportModel_unfold (q : Query) (w : World) :
  ExportModel E q w
  = run_handler
      (export_entities E q (GetEntities E (export_filter q) (registry w)))
      (record (EvGetEntities (export_filter q)) w).
Proof. reflexivity. Qed.

(** C10. Of a non-empty answer of the registry only the first entity is
    exported, through an unchecked type assertion: the handler panics when
    that entity is not a model definition, so an export that does not
    panic had a model definition first. *)
Theorem C10_first_entity_unchecked (q : Query) (disk : FS) (reg : list Entity)
    (e : Entity) (rest : list Entity)
    (Hfound : GetEntities E (export_filter q) reg = inl (e :: rest)) :
  let w := initial_world disk reg in
  ExportModel E q w
  = run_handler (export_entities E q (inl [e])) (record (EvGetEntities (export_filter q)) w)
  /\ ((forall m, e <> EModelDefinition m) -> (ExportModel E q w).1 = Panic)
  /\ ((ExportModel E q w).1 = Finished -> exists m, e = EModelDefinition m).
Proof.
  cbn zeta. rewrite ExportModel_unfold. cbn [registry initial_world].
  rewrite Hfound. split; [reflexivity |].
  set (w := record _ _).
  assert (Hpanic : (forall m, e <> EModelDefinition m) ->
            (run_handler (export_entities E q (inl (e :: rest))) w).1 = Panic).
  { intros Hother. destruct e as [m | c | r | t]; [by destruct (Hother m) | ..];
      reflexivity. }
  split; [exact Hpanic |].
  intros Hfinished. destruct e as [m | c | r | t]; [by exists m | ..];
    rewrite Hpanic in Hfinished; discriminate.
Qed.

(** *** The response of a successful export *)

Lemma write_tree_quiet (outputFormat versionDir : string) (model : ModelDefinition) :
  triple untouched (export_write_tree E outputFormat versionDir model)
    (fun m w => untouched w /\ m = strip model) failed.
Proof.
  unfold export_write_tree. quiet_walk.
Qed.

Lemma package_oci (modelDir : string) (model : ModelDefinition) :
  triple untouched (export_package E "oci" modelDir model)
    (fun byt w =>
       resp w = {| header := tar_headers (Name model) byt; sent := None;
                   body := EmptyString |})
    failed.
Proof.
  unfold export_package. rewrite bool_decide_eq_true_2 by reflexivity.
  quiet_walk.
  intros w Hw. unfold_statements. unfold untouched in Hw. cbn.
  repeat (inner_case; cbn); rewrite Hw; reflexivity.
Qed.

Lemma failed_tar_answer (found : list Entity + error) (w : World) :
  failed w -> tar_answer E found w.
Proof. intros Hfailed h Hsent. by destruct (Hfailed h). Qed.

Lemma export_entities_oci (q : Query) (found : list Entity + error) :
  export_fileTypes q = "oci" ->
  triple untouched (export_entities E q found) (fun _ => tar_answer E found) failed.
Proof.
  intros Hoci. unfold export_entities. rewrite Hoci.
  destruct found as [[| [m | c | r | t] rest] | err];
    try (run_leaf quiet_close; fail).
  rewrite bool_decide_eq_false_2 by discriminate.
  quiet_walk.
  eapply triple_bind; [apply write_tree_quiet |]. intros stripped.
  apply triple_pure. intros ->.
  eapply triple_bind; [apply package_oci |]. intros byt.
  intros w Hw. unfold_statements. unfold tar_answer, failed, not_ok, freeze. cbn.
  rewrite ?Hw; cbn. repeat (inner_case; cbn; rewrite ?Hw; cbn).
  all: intros h [= <-]; eexists _, _; split; [reflexivity |].
  all: match goal with H : model_ReplaceSVGData E _ _ = _ |- _ => rewrite H end; cbn.
  all: unfold tar_headers.
  all: split; [by rewrite !lookup_insert_ne, lookup_insert_eq by done |].
  all: by rewrite !lookup_insert_ne, lookup_insert_eq by done.
Qed.

Lemma run_deferred_resp (ds : list Deferred) (w : World) :
  resp (foldl (fun acc d => run_deferred d acc) w ds) = resp w.
Proof.
  revert w. induction ds as [| d ds IH]; intros w; [reflexivity |].
  cbn [foldl]. rewrite IH. by destruct d.
Qed.

(** The export reads its query through [Get] only. *)
Lemma ExportModel_body_ext (q1 q2 : Query) :
  (forall key, Query_Get q1 key = Query_Get q2 key \/ key = "file_type") ->
  export_fileTypes q1 = export_fileTypes q2 ->
  ExportModel_body E q1 = ExportModel_body E q2.
Proof.
  intros Hget Hft.
  assert (Hkey : forall key, key <> "file_type" -> Query_Get q1 key = Query_Get q2 key).
  { intros key Hne. by destruct (Hget key). }
  unfold ExportModel_body, export_entities, export_filter, bool_param,
    export_outputFormat.
  rewrite Hft.
  rewrite (Hkey "id"), (Hkey "name"), (Hkey "version"), (Hkey "output_format"),
    (Hkey "components"), (Hkey "relationships") by discriminate.
  reflexivity.
Qed.

Lemma Query_Get_insert_ne (q : Query) (key key' : string) (vs : list string) :
  key <> key' -> Query_Get (<[key := vs]> q) key' = Query_Get q key'.
Proof. intros Hne. unfold Query_Get. by rewrite lookup_insert_ne. Qed.

Lemma Query_Get_delete_ne (q : Query) (key key' : string) :
  key <> key' -> Query_Get (delete key q) key' = Query_Get q key'.
Proof. intros Hne. unfold Query_Get. by rewrite lookup_delete_ne. Qed.

(** C6. An export with [file_type=oci] that answers with status 200
    carries [Content-Type: application/x-tar] and a [Content-Disposition]
    that names the attachment after the model, with extension [.tar]; and
    a request without [file_type] is handled exactly as the same request
    with [file_type=oci]. *)
Theorem C6_oci_tar_and_default (q : Query) (disk : FS) (reg : list Entity)
    (h : Header)
    (Hoci : Query_Get q "file_type" = "oci")
    (Hok : sent (resp (ExportModel E q (initial_world disk reg)).2)
           = Some (StatusOK, h)) :
  (exists m rest,
      GetEntities E (export_filter q) reg = inl (EModelDefinition m :: rest)
      /\ h !! "Content-Type" = Some ["application/x-tar"]
      /\ h !! "Content-Disposition"
         = Some [attachment (Name (model_ReplaceSVGData E m "../../").1 +:+ ".tar")])
  /\ forall w,
       ExportModel E (delete "file_type" q) w
       = ExportModel E (<["file_type" := ["oci"]]> q) w.
Proof.
  split.
  - revert h Hok. rewrite ExportModel_unfold. cbn [registry initial_world].
    set (found := GetEntities E (export_filter q) reg).
    change (tar_answer E found
              (run_handler (export_entities E q found)
                 (record (EvGetEntities (export_filter q)) (initial_world disk reg))).2).
    apply (run_handler_triple untouched _ (tar_answer E found)).
    + eapply triple_weaken; [apply export_entities_oci | auto ..].
      * unfold export_fileTypes. by rewrite Hoci.
      * apply failed_tar_answer.
    + intros w Hw h. rewrite run_deferred_resp. apply Hw.
    + reflexivity.
  - intros w. unfold ExportModel. f_equal. apply ExportModel_body_ext.
    + intros key. destruct (decide (key = "file_type")) as [-> | Hne]; [by right |].
      left. by rewrite Query_Get_delete_ne, Query_Get_insert_ne.
    + unfold export_fileTypes, Query_Get.
      by rewrite lookup_delete_eq, lookup_insert_eq.
Qed.

(** *** What the export writes *)

Lemma export_entities_writes (q : Query) (m : ModelDefinition) (rest : list Entity) :
  let model := (model_ReplaceSVGData E m "../../").1 in
  let J w :=
    Forall (writes_header E (strip model) (export_versionDir E model)
              (export_outputFormat q)) (trace w) in
  triple J (export_entities E q (inl (EModelDefinition m :: rest))) (fun _ => J) J.
Proof.
  cbn zeta. unfold export_entities, export_versionDir.
  rewrite bool_decide_eq_false_2 by discriminate.
  unfold export_write_tree, export_package.
  events_walk.
Qed.

Lemma run_deferred_events (P : Event -> Prop) (ds : list Deferred) (w : World) :
  (forall p, P (EvRemoveAll p)) -> (forall p, P (EvRemove p)) ->
  (forall p, P (EvClose p)) -> P EvCloseBody ->
  Forall P (trace w) ->
  Forall P (trace (foldl (fun acc d => run_deferred d acc) w ds)).
Proof.
  intros Hra Hr Hc Hb. revert w.
  induction ds as [| d ds IH]; intros w Hw; [assumption |].
  cbn [foldl]. apply IH. destruct d; cbn; apply Forall_app_2; auto.
Qed.

Lemma run_deferred_trace_incl (ds : list Deferred) (w : World) (ev : Event) :
  ev ∈ trace w -> ev ∈ trace (foldl (fun acc d => run_deferred d acc) w ds).
Proof.
  revert w. induction ds as [| d ds IH]; intros w Hw; [assumption |].
  cbn [foldl]. apply IH. destruct d; cbn; apply elem_of_app; by left.
Qed.

Lemma write_tree_wrote (fmt versionDir : string) (model : ModelDefinition) :
  let ev := EvWriteModelDefinition (strip model)
              (filepath_Join E [versionDir; "model." +:+ fmt]) fmt in
  triple unanswered (export_write_tree E fmt versionDir model)
    (fun _ w => ev ∈ trace w) (fun w => failed w \/ ev ∈ trace w).
Proof.
  cbn zeta. unfold export_write_tree.
  walk_with before_write ltac:(run_leaf answer_close).
  eapply triple_bind.
  { instantiate (1 := fun _ w => _ ∈ trace w). intros w _. cbn.
    apply elem_of_app. right. apply list_elem_of_singleton. reflexivity. }
  intros ?.
  walk_with anywhere ltac:(run_leaf wrote_close).
Qed.

Lemma export_entities_wrote (q : Query) (m : ModelDefinition) (rest : list Entity) :
  let model := (model_ReplaceSVGData E m "../../").1 in
  let ev := EvWriteModelDefinition (strip model)
              (filepath_Join E [export_versionDir E model;
                                "model." +:+ export_outputFormat q])
              (export_outputFormat q) in
  triple unanswered (export_entities E q (inl (EModelDefinition m :: rest)))
    (fun _ w => ev ∈ trace w) (fun w => failed w \/ ev ∈ trace w).
Proof.
  cbn zeta. unfold export_entities, export_versionDir.
  rewrite bool_decide_eq_false_2 by discriminate.
  walk_with before_response ltac:(run_leaf answer_close).
  cbn [fst]. eapply triple_bind; [apply write_tree_wrote |].
  intros ?. unfold export_package.
  walk_with anywhere ltac:(run_leaf wrote_close).
Qed.

(** C9. The export writes the model with its [Components] and
    [Relationships] fields cleared, into [model.<outputFormat>] under the
    version directory; every component and relationship it writes goes
    under [components/] and [relationships/] and carries that stripped
    model as its [Model]; and an export that answers with status 200 did
    write the model file. *)
Theorem C9_export_writes_stripped_model (q : Query) (disk : FS)
    (reg : list Entity) (m : ModelDefinition) (rest : list Entity)
    (Hfound : GetEntities E (export_filter q) reg = inl (EModelDefinition m :: rest)) :
  let model := (model_ReplaceSVGData E m "../../").1 in
  let header := strip model in
  let versionDir := export_versionDir E model in
  let fmt := export_outputFormat q in
  let w := (ExportModel E q (initial_world disk reg)).2 in
  Components header = None
  /\ Relationships header = None
  /\ Forall (writes_header E header versionDir fmt) (trace w)
  /\ ((exists h, sent (resp w) = Some (StatusOK, h)) ->
      EvWriteModelDefinition header
        (filepath_Join E [versionDir; "model." +:+ fmt]) fmt ∈ trace w).
Proof.
  cbn zeta. split; [reflexivity |]. split; [reflexivity |].
  rewrite ExportModel_unfold. cbn [registry initial_world]. rewrite Hfound.
  set (w0 := record _ _). split.
  - set (P := writes_header E _ _ _).
    apply (run_handler_triple _ _ _ (fun w => Forall P (trace w))
             (export_entities_writes q m rest)).
    + intros w Hw. apply run_deferred_events; cbn; auto.
    + subst w0. cbn. repeat constructor.
  - intros [h Hsent]. revert Hsent.
    set (ev := EvWriteModelDefinition _ _ _).
    apply (run_handler_triple unanswered _ (fun w => failed w \/ ev ∈ trace w)
             (fun w => sent (resp w) = Some (StatusOK, h) -> ev ∈ trace w)).
    + eapply triple_weaken; [apply export_entities_wrote | auto ..].
    + intros w [Hfailed | Hwrote]; rewrite run_deferred_resp.
      * intros Hok. by destruct (Hfailed h).
      * intros _. by apply run_deferred_trace_incl.
    + reflexivity.
Qed.

(** ** The import *)

Lemma lower_ascii_not_upper (c : ascii) :
  GoStrings.is_upper_ascii (GoStrings.lower_ascii c) = false.
Proof. destruct c as [[] [] [] [] [] [] [] []]; reflexivity. Qed.

(** On an ASCII string [strings.ToLower] leaves no upper-case letter. *)
Lemma ToLower_no_upper (f : string -> string) (s : string) :
  GoStrings.isASCII s = true ->
  GoStrings.has_upper (GoStrings.ToLower f s) = false.
Proof.
  unfold GoStrings.ToLower. intros Hascii. rewrite Hascii. clear Hascii.
  induction s as [| c s IH]; [reflexivity |].
  cbn [GoStrings.map_chars GoStrings.has_upper].
  by rewrite lower_ascii_not_upper, IH.
Qed.

Lemma import_url_scaffolds (importRequest : ImportRequest) :
  let J w :=
    Forall (scaffolds_with E (csv_Model (scaffold_model E importRequest))) (trace w) in
  triple J (import_url E importRequest) (fun _ => J) J.
Proof.
  cbn zeta. unfold import_url.
  walk_with anywhere ltac:(run_leaf witnessed_close).
Qed.

(** C8. A URL import lower-cases the model name before anything is
    derived from it: the generator, the computation of the versioned
    package path, the creation of the model definition and the path of
    the file it is written to all get the lower-cased name, whatever the
    case of the name in the request. *)
Theorem C8_url_model_name_lower_cased (importRequest : ImportRequest)
    (disk : FS) (reg : list Entity)
    (Hurl : UploadType importRequest = "url")
    (Hdefaults : csv_Model (setDefaultValues E (request_model importRequest))
                 = im_Model (ib_Model (importBody importRequest))) :
  let supplied := im_Model (ib_Model (importBody importRequest)) in
  let name := GoStrings.ToLower (unicode_lower E) supplied in
  let w := (RegisterMeshmodels E (inl importRequest) (initial_world disk reg)).2 in
  csv_Model (scaffold_model E importRequest) = name
  /\ Forall (scaffolds_with E name) (trace w)
  /\ (GoStrings.isASCII supplied = true -> GoStrings.has_upper name = false).
Proof.
  cbn zeta.
  assert (Hname : csv_Model (scaffold_model E importRequest)
                  = GoStrings.ToLower (unicode_lower E)
                      (im_Model (ib_Model (importBody importRequest)))).
  { unfold scaffold_model. cbn. by rewrite Hdefaults. }
  split; [exact Hname |]. split; [| apply ToLower_no_upper].
  rewrite <- Hname.
  set (P := scaffolds_with E _).
  apply (run_handler_triple (fun w => Forall P (trace w)) _
           (fun w => Forall P (trace w)) (fun w => Forall P (trace w))).
  - unfold RegisterMeshmodels_body. rewrite Hurl.
    rewrite (bool_decide_eq_false_2 ("url" = "csv")) by discriminate.
    rewrite (bool_decide_eq_true_2 ("url" = "url")) by reflexivity.
    apply triple_seq; [by intros w Hw |]. intros _.
    apply triple_seq; [apply import_url_scaffolds |]. intros _.
    unfold finish_registration.
    walk_with anywhere ltac:(run_leaf witnessed_close).
  - intros w Hw. apply run_deferred_events; cbn; auto.
  - constructor.
Qed.

(** *** The sheets of a CSV import *)








(** *** The copy into the registry location *)

Section Copy.

Variable importRequest : ImportRequest.

Ltac stage_close w Hw :=
  repeat (inner_case; cbn);
  unfold copied, scratch, generated in *; cbn;
  repeat match goal with
    | H : _ /\ _ |- _ => destruct H
    | H : exists _, _ |- _ => destruct H
    end;
  first
    [ assumption
    | not_in_grown_trace
    | solve [left; not_in_grown_trace]
    | solve [try right; repeat first [split | eexists];
             first [eassumption | in_trace | not_in_grown_trace]] ].

Lemma import_csv_copies :
  Register importRequest = true ->
  triple (fun w => generated ∉ trace w) (import_csv E importRequest)
    (fun _ => copied E) (fun w => generated ∉ trace w \/ copied E w).
Proof.
  intros Hreg. unfold import_csv. rewrite Hreg. fold (modelLocation E).
  walk_with before_scratch ltac:(run_leaf stage_close).
  (* the scratch directory and its deferred removal *)
  lazymatch goal with
  | |- triple _ (bind (defer (DeferRemoveAll ?d)) _) _ _ =>
      apply (triple_bind _ (fun _ w => (generated ∉ trace w)
                                       /\ DeferRemoveAll d ∈ defers w));
        [ run_leaf stage_close | intros ? ];
      apply (triple_bind _ (fun _ w => (generated ∉ trace w) /\ scratch d w));
        [ run_leaf stage_close | intros ? ];
      walk_with before_generated ltac:(run_leaf stage_close);
      (* from here on the models were generated *)
      apply (triple_bind _ (fun _ w => scratch d w));
        [ run_leaf stage_close | intros ? ];
      walk_with before_copy ltac:(run_leaf stage_close);
      apply (triple_bind _ (fun _ w => EvCopyDirectory d (modelLocation E) ∈ trace w
                                       /\ scratch d w));
        [ run_leaf stage_close | intros ? ];
      walk_with anywhere ltac:(run_leaf stage_close)
  end.
Qed.

(** The body of the handler removes nothing: removals are deferred. *)
Lemma body_never_removes (decoded : ImportRequest + error) :
  let J w := Forall (fun ev => is_removal ev = false) (trace w) in
  triple J (RegisterMeshmodels_body E decoded) (fun _ => J) J.
Proof.
  cbn zeta. unfold RegisterMeshmodels_body, import_csv, import_url, import_file,
    import_urlImport.
  events_walk.
Qed.

Lemma import_csv_no_copy :
  Register importRequest = false ->
  let J w := Forall (fun ev => is_copy ev = false) (trace w) in
  triple J (import_csv E importRequest) (fun _ => J) J.
Proof.
  intros Hreg. cbn zeta. unfold import_csv. rewrite Hreg.
  events_walk.
Qed.

Lemma run_deferred_trace (ds : list Deferred) (w : World) :
  trace (foldl (fun acc d => run_deferred d acc) w ds)
  = trace w ++ map deferred_event ds.
Proof.
  revert w. induction ds as [| d ds IH]; intros w; cbn [foldl map].
  - by rewrite app_nil_r.
  - rewrite IH. destruct d; cbn; by rewrite <- app_assoc.
Qed.

Lemma generated_not_deferred (ds : list Deferred) :
  generated ∉ map deferred_event ds.
Proof.
  induction ds as [| d ds IH]; cbn; [apply not_elem_of_nil |].
  apply not_elem_of_cons. split; [by destruct d | exact IH].
Qed.

(** C2, as the code has it.  When the sheets of a CSV import were turned
    into models and [Register] is set, the scratch directory the
    generator ran in is copied to the registry location before it is
    removed: the trace splits into the calls of the body, which hold the
    copy and no removal, and the deferred calls, which hold the removal
    of the scratch directory.  When [Register] is not set, nothing is
    copied. *)
Theorem C2_copy_only_when_registering (disk : FS) (reg : list Entity)
    (Hcsv : UploadType importRequest = "csv") :
  let w := (RegisterMeshmodels E (inl importRequest) (initial_world disk reg)).2 in
  generated ∈ trace w ->
  if Register importRequest then
    exists dir t1 t2,
      trace w = t1 ++ t2
      /\ (exists model comp rel, EvInvokeGenerationFromSheet dir model comp rel ∈ t1)
      /\ EvCopyDirectory dir (modelLocation E) ∈ t1
      /\ Forall (fun ev => is_removal ev = false) t1
      /\ EvRemoveAll dir ∈ t2
  else Forall (fun ev => is_copy ev = false) (trace w).
Proof.
  cbn zeta. unfold RegisterMeshmodels, run_handler.
  pose proof (body_never_removes (inl importRequest) (initial_world disk reg)) as Hrm.
  destruct (Register importRequest) eqn:Hreg.
  - assert (Hbody : triple (fun w => generated ∉ trace w)
                      (RegisterMeshmodels_body E (inl importRequest))
                      (fun _ => copied E) (fun w => generated ∉ trace w \/ copied E w)).
    { unfold RegisterMeshmodels_body. rewrite Hcsv.
      rewrite (bool_decide_eq_true_2 ("csv" = "csv")) by reflexivity.
      apply triple_seq; [by intros w Hw |]. intros ?.
      eapply triple_bind; [apply (import_csv_copies Hreg) |]. intros ?.
      unfold finish_registration.
      walk_with anywhere ltac:(run_leaf stage_close). }
    specialize (Hbody (initial_world disk reg)).
    destruct (RegisterMeshmodels_body E (inl importRequest) (initial_world disk reg))
      as [r wb].
    cbn [fst snd] in *. rewrite run_deferred_trace. cbn [trace set_defers].
    intros Hgen. apply elem_of_app in Hgen as [Hgen | Hgen];
      [| by destruct (generated_not_deferred (defers wb))].
    assert (Hcopied : copied E wb).
    { destruct r as [[] | |]; [apply Hbody; apply not_elem_of_nil | ..];
        (destruct Hbody as [Hno | Hc]; [apply not_elem_of_nil | done | done]). }
    destruct Hcopied as (dir & Hcopy & Hdefer & Hscratch).
    exists dir, (trace wb), (map deferred_event (defers wb)).
    split; [reflexivity |]. split; [exact Hscratch |]. split; [exact Hcopy |].
    split.
    + destruct r as [[] | |]; apply Hrm; constructor.
    + apply (list_elem_of_fmap_2 deferred_event _ _ Hdefer).
  - intros _.
    set (J := fun w => Forall (fun ev => is_copy ev = false) (trace w)).
    assert (Hbody : triple J (RegisterMeshmodels_body E (inl importRequest))
                      (fun _ => J) J).
    { unfold RegisterMeshmodels_body. rewrite Hcsv.
      rewrite (bool_decide_eq_true_2 ("csv" = "csv")) by reflexivity.
      apply triple_seq; [by intros w Hw |]. intros ?.
      apply triple_seq; [apply (import_csv_no_copy Hreg) |]. intros ?.
      unfold finish_registration. subst J. events_walk. }
    specialize (Hbody (initial_world disk reg)).
    destruct (RegisterMeshmodels_body E (inl importRequest) (initial_world disk reg))
      as [r wb].
    cbn [fst snd] in *.
    apply run_deferred_events; cbn; auto.
    destruct r as [[] | |]; apply Hbody; constructor.
Qed.

End Copy.

(** *** Imports that do not register *)

Ltac untouched_close w Hw :=
  repeat (inner_case; cbn);
  unfold registry_untouched in *; cbn;
  let Hkept := fresh "Hkept" in
  destruct Hw as [Hkept Hw]; (split; [exact Hkept |]);
  repeat (apply Forall_app_2; [| repeat constructor; cbn; try done]);
  try assumption.

Lemma register_false_body (importRequest : ImportRequest) (reg : list Entity) :
  Register importRequest = false ->
  triple (registry_untouched reg) (RegisterMeshmodels_body E (inl importRequest))
    (fun _ => registry_untouched reg) (registry_untouched reg).
Proof.
  intros Hreg.
  unfold RegisterMeshmodels_body, import_csv, import_url, import_file, import_urlImport.
  rewrite Hreg.
  walk_with anywhere ltac:(run_leaf untouched_close).
Qed.

Lemma run_deferred_registry (ds : list Deferred) (w : World) :
  registry (foldl (fun acc d => run_deferred d acc) w ds) = registry w.
Proof.
  revert w. induction ds as [| d ds IH]; intros w; [reflexivity |].
  cbn [foldl]. rewrite IH. by destruct d.
Qed.

(** X1. With [Register] unset no import, of any upload type, calls the
    registration helper, and the registry is left as it was. *)
Theorem register_false_registry_untouched (importRequest : ImportRequest)
    (disk : FS) (reg : list Entity) :
  Register importRequest = false ->
  registry_untouched reg
    (RegisterMeshmodels E (inl importRequest) (initial_world disk reg)).2.
Proof.
  intros Hreg.
  apply (run_handler_triple (registry_untouched reg) _ (registry_untouched reg)
           (registry_untouched reg) (register_false_body importRequest reg Hreg)).
  - intros w [Hregistry Hw]. split.
    + by rewrite run_deferred_registry.
    + apply run_deferred_events; cbn; auto.
  - split; [reflexivity | constructor].
Qed.


End Claims.

(** ** Runs in the sample world *)

Module Runs.

Import Requests.

Ltac in_concrete_trace :=
  apply list_elem_of_In; vm_compute; repeat (first [left; reflexivity | right]).


Lemma C2_counterexample :
  ~ copies_regardless Sample.env (Sample.csv_request false) Sample.disk [].
Proof.
  intros Hclaim.
  destruct (Hclaim eq_refl) as [dir Hcopy]; [in_concrete_trace |].
  apply list_elem_of_In in Hcopy. vm_compute in Hcopy.
  intuition discriminate.
Qed.

(** The temporary file of an uploaded file or of a downloaded archive is
    gone when the handler returns. *)
Example uploaded_file_removed :
  fs (run_import (file_request false)) = Sample.disk
  /\ EvRemove "/tmp/design.yaml" ∈ trace (run_import (file_request false))
  /\ fs (run_import (archive_request false)) = Sample.disk
  /\ EvRemove "/tmp/model.tar" ∈ trace (run_import (archive_request false)).
Proof.
  split; [by vm_compute |]. split; [in_concrete_trace |].
  split; [by vm_compute |]. in_concrete_trace.
Qed.

(** C1 at a CSV import.  The three temporary CSV files are closed on
    return but never removed: after a CSV import that generated its
    models, and after one that stopped at the second sheet, the files
    made by [os.CreateTemp] are still on the disk, while the scratch
    directory, whose removal is deferred, is gone. *)
Theorem C1_csv_temp_files_left_behind :
  let w := run_import (Sample.csv_request false) in
  let w' := run_import csv_bad_component in
  created (trace w) = 3
  /\ fs w !! "/tmp/model-0.csv" = Some (File "name")
  /\ fs w !! "/tmp/component-1.csv" = Some (File "name")
  /\ fs w !! "/tmp/relationship-2.csv" = Some (File "name")
  /\ open_files w = []
  /\ EvMkdirTemp "/tmp/tempData3" ∈ trace w
  /\ fs w !! "/tmp/tempData3" = None
  /\ created (trace w') = 1
  /\ fs w' !! "/tmp/model-0.csv" = Some (File "name").
Proof.
  cbn zeta. repeat split; try (by vm_compute). in_concrete_trace.
Qed.

(** C4 at a CSV import with [Register] unset.  The registry is not
    touched and the registration helper is not called, but the three
    temporary CSV files stay on the disk after the handler has
    returned. *)
Theorem C4_register_false_leaves_csv_files :
  let w := run_import (Sample.csv_request false) in
  Register (Sample.csv_request false) = false
  /\ registry w = []
  /\ existsb is_register (trace w) = false
  /\ filter (fun p => Files.is_under "/tmp" p = true) (map fst (map_to_list (fs w)))
     = ["/tmp/component-1.csv"; "/tmp/model-0.csv"; "/tmp/relationship-2.csv"].
Proof. cbn zeta. repeat split; by vm_compute. Qed.

(** *** The theorems at work *)

Lemma C2_witness :
  UploadType (Sample.csv_request true) = "csv"
  /\ generated ∈ trace (run_import (Sample.csv_request true))
  /\ exists dir t1 t2,
       trace (run_import (Sample.csv_request true)) = t1 ++ t2
       /\ (exists model comp rel, EvInvokeGenerationFromSheet dir model comp rel ∈ t1)
       /\ EvCopyDirectory dir (modelLocation Sample.env) ∈ t1
       /\ Forall (fun ev => is_removal ev = false) t1
       /\ EvRemoveAll dir ∈ t2.
Proof.
  split; [reflexivity |].
  assert (Hgen : generated ∈ trace (run_import (Sample.csv_request true)))
    by in_concrete_trace.
  split; [exact Hgen |].
  exact (C2_copy_only_when_registering Sample.env (Sample.csv_request true)
           Sample.disk [] eq_refl Hgen).
Defined.


Lemma C5_witness :
  GetEntities Sample.env (export_filter q_missing) demo_registry = inl []
  /\ sent (resp (run_export q_missing)) = Some (StatusNotFound, ∅)
  /\ GoStrings.contains (not_found_message "missing" EmptyString EmptyString) "missing".
Proof.
  split; [reflexivity |].
  pose proof (C5_not_found_is_404 Sample.env q_missing Sample.disk demo_registry
                eq_refl) as H.
  cbn zeta in H. destruct H as (Hresp & Hsent & _ & Hid & _).
  split; [| exact Hid].
  unfold run_export. rewrite Hresp. exact Hsent.
Defined.

Lemma C6_witness :
  Query_Get q_demo "file_type" = "oci"
  /\ sent (resp (run_export q_demo)) = Some (StatusOK, tar_headers "demo" "oci-tar")
  /\ tar_headers "demo" "oci-tar" !! "Content-Type" = Some ["application/x-tar"]
  /\ tar_headers "demo" "oci-tar" !! "Content-Disposition"
     = Some [attachment "demo.tar"].
Proof.
  assert (Hok : sent (resp (run_export q_demo))
                = Some (StatusOK, tar_headers "demo" "oci-tar")) by (by vm_compute).
  split; [reflexivity |]. split; [exact Hok |].
  destruct (C6_oci_tar_and_default Sample.env q_demo Sample.disk demo_registry
              (tar_headers "demo" "oci-tar") eq_refl Hok)
    as [(m & rest & Hfound & Htype & Hname) _].
  split; [exact Htype |].
  injection Hfound as <- _. exact Hname.
Defined.

Lemma C8_witness :
  UploadType url_request = "url"
  /\ csv_Model (scaffold_model Sample.env url_request) = "kubernetes"
  /\ Forall (scaffolds_with Sample.env "kubernetes") (trace (run_import url_request))
  /\ EvCreateVersionedDirectory "v0.1.0" "kubernetes" ∈ trace (run_import url_request).
Proof.
  split; [reflexivity |].
  destruct (C8_url_model_name_lower_cased Sample.env url_request Sample.disk []
              eq_refl eq_refl) as (Hname & Hall & _).
  split; [exact Hname |]. split; [exact Hall |]. in_concrete_trace.
Defined.

Lemma C9_witness :
  GetEntities Sample.env (export_filter q_demo) demo_registry
    = inl [EModelDefinition Sample.full_model]
  /\ Forall (writes_header Sample.env (strip Sample.full_model)
               "/tmp/demo/v0.1.0/v1.0.0" "json") (trace (run_export q_demo))
  /\ EvWriteModelDefinition (strip Sample.full_model)
       "/tmp/demo/v0.1.0/v1.0.0/model.json" "json" ∈ trace (run_export q_demo).
Proof.
  split; [reflexivity |].
  destruct (C9_export_writes_stripped_model Sample.env q_demo Sample.disk
              demo_registry Sample.full_model [] eq_refl)
    as (_ & _ & Hall & Hwrote).
  split; [exact Hall |].
  apply Hwrote. exists (tar_headers "demo" "oci-tar"). by vm_compute.
Defined.

Lemma C10_witness :
  GetEntities Sample.env (export_filter q_demo) demo_registry
    = inl [EModelDefinition Sample.full_model]
  /\ ((ExportModel Sample.env q_demo (initial_world Sample.disk demo_registry)).1
       = Finished ->
      exists m, EModelDefinition Sample.full_model = EModelDefinition m).
Proof.
  split; [reflexivity |].
  exact (proj2 (proj2 (C10_first_entity_unchecked Sample.env q_demo Sample.disk
                         demo_registry (EModelDefinition Sample.full_model) []
                         eq_refl))).
Defined.

Lemma X1_witness :
  Register (file_request false) = false
  /\ registry_untouched [] (run_import (file_request false)).
Proof.
  split; [reflexivity |].
  exact (register_false_registry_untouched Sample.env (file_request false)
           Sample.disk [] eq_refl).
Defined.

(** A registry that answers with a component first makes the export
    panic. *)
Example component_first_panics :
  (ExportModel Sample.env_unfiltered q_demo
     (initial_world Sample.disk
        [EComponentDefinition (Sample.demo_component "Pod");
         EModelDefinition Sample.full_model])).1 = Panic.
Proof. by vm_compute. Qed.

Example boolean_parameters :
  bool_param (<["components" := ["maybe"]]> ∅) "components" = true
  /\ bool_param ∅ "components" = true
  /\ bool_param (<["components" := ["false"]]> ∅) "components" = false
  /\ bool_param (<["relationships" := ["0"]]> ∅) "relationships" = false
  /\ bool_param (<["relationships" := ["no"]]> ∅) "relationships" = true.
Proof. repeat split; by vm_compute. Qed.

End Runs.
